(** * semya backend: the HTTP layer (backend/http.go)

    A shallow embedding of the three request handlers of the monitoring
    backend ([snapshotOverview], [snapshotBy], [staticSnapshot]) and of
    [NewServer].  A handler is modelled by the sequence of calls it makes on
    its collaborators (the response writer, the subscriber, the historical
    reader, the logger, the clock); the answers of the collaborators that
    are not part of http.go are taken from an environment.  The statements
    of the migration of the historical tables are modelled on a catalog of
    relations. *)

From Stdlib Require Import ZArith Ascii String.
From stdpp Require Import gmap strings list.

Local Open Scope Z_scope.

(** ** Byte strings of the Go literals *)

(** The double quote and the line feed, written by their codes. *)
Definition dq : string := String "034"%char EmptyString.
Definition nl : string := String "010"%char EmptyString.

(** The literal [{"error": "msg"}] (a space after the colon). *)
Definition error_json_sp (msg : string) : string :=
  "{" +:+ dq +:+ "error" +:+ dq +:+ ": " +:+ dq +:+ msg +:+ dq +:+ "}".

(** The literal [{"error":"msg"}] (no space after the colon). *)
Definition error_json (msg : string) : string :=
  "{" +:+ dq +:+ "error" +:+ dq +:+ ":" +:+ dq +:+ msg +:+ dq +:+ "}".

(** ** Go values *)

(** A Go [(value, error)] pair; an error is kept as its message. *)
Inductive result (A : Type) : Type :=
| Ok (a : A)
| Err (e : string).
Arguments Ok {A} a.
Arguments Err {A} e.

(** One observation of a monitor.  The Go struct is declared outside
    http.go; the fields are the columns of the [monitor_historical] table
    of the migration. *)
Record MonitorHistorical : Type := {
  monitor_id : string;
  status : Z;
  latency : Z;
  timestamp : Z
}.

(** HTTP status codes used by the handlers. *)
Definition StatusOK : Z := 200.
Definition StatusBadRequest : Z := 400.
Definition StatusPreconditionFailed : Z := 412.
Definition StatusInternalServerError : Z := 500.

(** [url.Values]: a map from a key to the list of its values. *)
Definition Values_Get (v : gmap string (list string)) (key : string) : string :=
  match v !! key with
  | Some (x :: _) => x
  | _ => ""
  end.

(** [strings.Split(s, ",")]: cut at every comma; n commas give n+1 parts. *)
Fixpoint split_comma_aux (cur : string) (s : string) : list string :=
  match s with
  | EmptyString => [cur]
  | String c rest =>
      if Ascii.eqb c ","%char
      then cur :: split_comma_aux "" rest
      else split_comma_aux (cur +:+ String c EmptyString) rest
  end.

Definition strings_Split_comma (s : string) : list string :=
  split_comma_aux "" s.

(** [slices.Contains]. *)
Fixpoint slices_Contains (l : list string) (x : string) : bool :=
  match l with
  | [] => false
  | y :: l' => if String.eqb y x then true else slices_Contains l' x
  end.

(** [strings.Join(elems, ",")]. *)
Fixpoint strings_Join_comma (elems : list string) : string :=
  match elems with
  | [] => ""
  | [x] => x
  | x :: rest => x +:+ "," +:+ strings_Join_comma rest
  end.

(** The number of commas of a string. *)
Fixpoint count_commas (s : string) : nat :=
  match s with
  | EmptyString => 0%nat
  | String c rest =>
      if Ascii.eqb c ","%char then S (count_commas rest) else count_commas rest
  end.

(** Whether a string has a comma in it. *)
Fixpoint has_comma (s : string) : bool :=
  match s with
  | EmptyString => false
  | String c rest => if Ascii.eqb c ","%char then true else has_comma rest
  end.

(** The header a stream of [snapshotBy] is sent with (lines 142 to 144). *)
Definition event_stream_header : gmap string string :=
  <["Connection" := "keep-alive"]>
    (<["Cache-Control" := "no-cache"]>
       (<["Content-Type" := "text/event-stream"]> ∅)).

Section Backend.

(** Types declared outside http.go: the broker, the historical reader, the
    subscriber and the monitor metadata.  A Go pointer that may be nil is
    an [option]. *)
Context {Broker MonitorHistoricalReader Subscriber Monitor : Type}.

Record Server : Type := {
  historicalReader : option MonitorHistoricalReader;
  centralBroker : option Broker
}.

Record ServerConfig : Type := {
  SSLRedirect : bool;
  Environment : string;
  Hostname : string;
  Port : string;
  StaticPath : string;
  cfg_MonitorHistoricalReader : option MonitorHistoricalReader;
  cfg_CentralBroker : option Broker
}.

(** The collaborators of http.go: the package-level slice [monitorIds],
    the subscriber constructor, the three reads of the historical store
    and encoding/json on the three kinds of values the handlers
    serialize. *)
Record Env : Type := {
  monitorIds : list string;
  NewSubscriber : option Broker -> list string -> result Subscriber;
  ReadRawHistorical :
    option MonitorHistoricalReader -> string -> result (list MonitorHistorical);
  ReadHourlyHistorical :
    option MonitorHistoricalReader -> string -> result (list MonitorHistorical);
  ReadDailyHistorical :
    option MonitorHistoricalReader -> string -> result (list MonitorHistorical);
  (* json.Marshal(data) for one sample *)
  json_Marshal_sample : MonitorHistorical -> result string;
  (* json.Marshal(map[string]string{"error": msg}) *)
  json_Marshal_error : string -> result string;
  (* json.Marshal(map[string]any{"metadata": .., "historical": ..}) *)
  json_Marshal_snapshot : Monitor -> list MonitorHistorical -> result string;
  (* the zero value of Monitor ([var monitor Monitor]) *)
  Monitor_zero : Monitor
}.

(** ** Effects *)

(** The calls a handler makes, in program order. *)
Inductive Event : Type :=
| WriteHeader (code : Z)                  (* w.WriteHeader(code) *)
| HeaderSet (key value : string)          (* w.Header().Set(key, value) *)
| Write (b : string)                      (* w.Write(b) *)
| Flush                                   (* flusher.Flush() *)
| CallNewSubscriber (broker : option Broker) (ids : list string)
| CallListen (sub : Subscriber)           (* sub.Listen(r.Context()) *)
| CallReadRaw (rd : option MonitorHistoricalReader) (id : string)
| CallReadHourly (rd : option MonitorHistoricalReader) (id : string)
| CallReadDaily (rd : option MonitorHistoricalReader) (id : string)
| Log (msg : string)                      (* log.Printf *)
| Sleep (ms : Z).                         (* time.Sleep, in milliseconds *)

(** How a handler stands after the events: it has returned, or it is
    still inside its [for] loop when the schedule given to it ends. *)
Inductive Outcome : Type := Returned | Looping.

(** A computation lists the calls it made and gives a value. *)
Definition M (A : Type) : Type := (list Event * A)%type.

#[global] Instance M_ret : MRet M := λ A a, ([], a).
#[global] Instance M_bind : MBind M :=
  λ A B f m, (m.1 ++ (f m.2).1, (f m.2).2).

Definition emit (e : Event) : M unit := ([e], tt).

Definition trace {A} (m : M A) : list Event := m.1.
Definition outcome {A} (m : M A) : A := m.2.

(** What one evaluation of the [select] statement of a streaming loop
    does: the cancellation case is taken, a sample is received from the
    channel [Listen] returned (together with the error [w.Write] will
    answer, if any), or no case is ready and [default] runs. *)
Inductive Select : Type :=
| CtxDone
| Recv (data : MonitorHistorical) (werr : option string)
| NoneReady.

(** [string(marshaled)]: json.Marshal gives a nil slice with an error. *)
Definition marshaled_bytes (r : result string) : string :=
  match r with
  | Ok b => b
  | Err _ => ""
  end.

Variable env : Env.

(** Calls whose answer comes from the environment. *)
Definition call_NewSubscriber (broker : option Broker) (ids : list string)
  : M (result Subscriber) :=
  emit (CallNewSubscriber broker ids) ;; mret (NewSubscriber env broker ids).

Definition call_ReadRawHistorical (rd : option MonitorHistoricalReader)
  (id : string) : M (result (list MonitorHistorical)) :=
  emit (CallReadRaw rd id) ;; mret (ReadRawHistorical env rd id).

Definition call_ReadHourlyHistorical (rd : option MonitorHistoricalReader)
  (id : string) : M (result (list MonitorHistorical)) :=
  emit (CallReadHourly rd id) ;; mret (ReadHourlyHistorical env rd id).

Definition call_ReadDailyHistorical (rd : option MonitorHistoricalReader)
  (id : string) : M (result (list MonitorHistorical)) :=
  emit (CallReadDaily rd id) ;; mret (ReadDailyHistorical env rd id).

(** [if err != nil { log.Printf(format, err) }] *)
Definition log_if_err (prefix : string) (err : option string) : M unit :=
  match err with
  | Some e => emit (Log (prefix +:+ e))
  | None => mret tt
  end.

Definition err_of {A} (r : result A) : option string :=
  match r with
  | Ok _ => None
  | Err e => Some e
  end.

(** The [for { select { ... } }] loop of [snapshotOverview] (lines 91 to
    110) and of [snapshotBy] (lines 160 to 179); the two are the same
    text.  Entering [select] evaluates the channel operands in source
    order, so [Listen] is called on every iteration, whichever case is
    then taken. *)
Fixpoint stream (sub : Subscriber) (sched : list Select) : M Outcome :=
  match sched with
  | [] => mret Looping
  | sel :: sched' =>
      emit (CallListen sub) ;;
      match sel with
      | CtxDone => mret Returned
      | Recv data werr =>
          let marshaled := json_Marshal_sample env data in
          log_if_err "failed to marshal data: " (err_of marshaled) ;;
          emit (Write ("data: " +:+ marshaled_bytes marshaled +:+ nl +:+ nl)) ;;
          log_if_err "failed to write data: " werr ;;
          emit Flush ;;
          stream sub sched'
      | NoneReady =>
          emit (Sleep 10) ;;
          stream sub sched'
      end
  end.

(** The answer to a failed subscription (lines 80 to 88, 149 to 157). *)
Definition subscribe_failed (err : string) : M Outcome :=
  emit (WriteHeader StatusInternalServerError) ;;
  emit (HeaderSet "Content-Type" "application/json") ;;
  match json_Marshal_error env ("failed to subscribe to endpoints: " +:+ err) with
  | Err _ =>
      emit (Write (error_json_sp "internal server error")) ;;
      mret Returned
  | Ok errBytes =>
      emit (Write errBytes) ;;
      mret Returned
  end.

(** The answer when the writer is no [http.Flusher]. *)
Definition not_flusher : M Outcome :=
  emit (WriteHeader StatusPreconditionFailed) ;;
  emit (HeaderSet "Content-Type" "application/json") ;;
  emit (Write (error_json_sp "not flusher")) ;;
  mret Returned.

(** [func (s *Server) snapshotOverview(w, r)].  For the three handlers the
    writer [w] is given by [flusher_ok], the result of the type assertion
    [w.(http.Flusher)], and by the calls made on it; the request [r] is
    given by [query], the value of [r.URL.Query()], and by [sched], what
    the successive [select] statements on [r.Context()] and on the
    subscriber's channel do. *)
Definition snapshotOverview (s : Server) (flusher_ok : bool)
  (query : gmap string (list string)) (sched : list Select) : M Outcome :=
  if negb flusher_ok then not_flusher
  else
    r ← call_NewSubscriber (centralBroker s) (monitorIds env);
    match r with
    | Err err => subscribe_failed err
    | Ok subscriber => stream subscriber sched
    end.

(** The [for _, id := range wantedMonitorIds] check: the first id that
    is not in [monitorIds], if any. *)
Fixpoint first_unknown (ids : list string) : option string :=
  match ids with
  | [] => None
  | id :: ids' =>
      if negb (slices_Contains (monitorIds env) id) then Some id
      else first_unknown ids'
  end.

(** [func (s *Server) snapshotBy(w, r)]. *)
Definition snapshotBy (s : Server) (flusher_ok : bool)
  (query : gmap string (list string)) (sched : list Select) : M Outcome :=
  if negb flusher_ok then not_flusher
  else
    let ids := Values_Get query "ids" in
    if String.eqb ids "" then
      emit (WriteHeader StatusBadRequest) ;;
      emit (HeaderSet "Content-Type" "application/json") ;;
      emit (Write (error_json "ids is required")) ;;
      mret Returned
    else
      let wantedMonitorIds := strings_Split_comma ids in
      match first_unknown wantedMonitorIds with
      | Some _ =>
          emit (HeaderSet "Content-Type" "application/json") ;;
          emit (WriteHeader StatusBadRequest) ;;
          emit (Write (error_json_sp "id is not in the list of monitors")) ;;
          mret Returned
      | None =>
          emit (HeaderSet "Content-Type" "text/event-stream") ;;
          emit (HeaderSet "Cache-Control" "no-cache") ;;
          emit (HeaderSet "Connection" "keep-alive") ;;
          emit (WriteHeader StatusOK) ;;
          r ← call_NewSubscriber (centralBroker s) wantedMonitorIds;
          match r with
          | Err err => subscribe_failed err
          | Ok sub => stream sub sched
          end
      end.

(** The answer to a bad request that sets the status before the header
    (lines 186 to 188, 198 to 200, 205 to 207, 241 to 243). *)
Definition bad_request (msg : string) : M Outcome :=
  emit (WriteHeader StatusBadRequest) ;;
  emit (HeaderSet "Content-Type" "application/json") ;;
  emit (Write (error_json_sp msg)) ;;
  mret Returned.

(** Lines 247 to 265 of [staticSnapshot]: serialize and answer. *)
Definition static_reply (monitor : Monitor)
  (monitorHistorical : list MonitorHistorical) : M Outcome :=
  match json_Marshal_snapshot env monitor monitorHistorical with
  | Err err =>
      emit (WriteHeader StatusInternalServerError) ;;
      emit (HeaderSet "Content-Type" "application/json") ;;
      match json_Marshal_error env err with
      | Err _ =>
          emit (Write (error_json_sp "internal server error")) ;;
          mret Returned
      | Ok errBytes =>
          emit (Write errBytes) ;;
          mret Returned
      end
  | Ok data =>
      emit (WriteHeader StatusOK) ;;
      emit (HeaderSet "Content-Type" "application/json") ;;
      emit (Write data) ;;
      mret Returned
  end.

(** One case of the [switch interval]: on a read error the handler sets
    the status and returns (lines 218 to 222, 226 to 230, 234 to 238). *)
Definition after_read (monitor : Monitor)
  (r : result (list MonitorHistorical)) : M Outcome :=
  match r with
  | Err _ =>
      emit (WriteHeader StatusInternalServerError) ;;
      mret Returned
  | Ok monitorHistorical => static_reply monitor monitorHistorical
  end.

(** [func (s *Server) staticSnapshot(w, r)]. *)
Definition staticSnapshot (s : Server) (flusher_ok : bool)
  (query : gmap string (list string)) (sched : list Select) : M Outcome :=
  let monitorId := Values_Get query "id" in
  if String.eqb monitorId "" then bad_request "id is required"
  else
    let interval := Values_Get query "interval" in
    let interval := if String.eqb interval "" then "hourly" else interval in
    if negb (String.eqb interval "hourly") && negb (String.eqb interval "daily")
       && negb (String.eqb interval "raw")
    then bad_request "interval must be hourly, daily, or raw"
    else if negb (slices_Contains (monitorIds env) monitorId)
    then bad_request "id is not in the list of monitors"
    else
      let monitor := Monitor_zero env in
      if String.eqb interval "raw" then
        r ← call_ReadRawHistorical (historicalReader s) monitorId;
        after_read monitor r
      else if String.eqb interval "hourly" then
        r ← call_ReadHourlyHistorical (historicalReader s) monitorId;
        after_read monitor r
      else if String.eqb interval "daily" then
        r ← call_ReadDailyHistorical (historicalReader s) monitorId;
        after_read monitor r
      else bad_request "interval must be hourly, daily, or raw".

(** ** NewServer *)

(** [net.JoinHostPort]: a host with a colon or a percent sign is put in
    brackets. *)
Fixpoint has_colon_or_percent (s : string) : bool :=
  match s with
  | EmptyString => false
  | String c rest =>
      if Ascii.eqb c ":"%char || Ascii.eqb c "%"%char then true
      else has_colon_or_percent rest
  end.

Definition net_JoinHostPort (host port : string) : string :=
  if has_colon_or_percent host then "[" +:+ host +:+ "]:" +:+ port
  else host +:+ ":" +:+ port.

(** A handler as the router holds it: the method value bound to the
    server. *)
Definition HandlerFunc : Type :=
  bool -> gmap string (list string) -> list Select -> M Outcome.

(** The [*http.Server] that [NewServer] returns: the listening address
    and the routes of the [api] router.  [the_server] is the [Server] the
    routes are bound to.  The middleware and the file server do not
    touch the [Server] and are left out. *)
Record HttpServer : Type := {
  Addr : string;
  the_server : Server;
  api_routes : list (string * HandlerFunc)
}.

Definition NewServer (config : ServerConfig) : HttpServer :=
  let server := {| historicalReader := cfg_MonitorHistoricalReader config;
                   centralBroker := None |} in
  {| Addr := net_JoinHostPort (Hostname config) (Port config);
     the_server := server;
     api_routes := [ ("/api/overview", snapshotOverview server);
                     ("/api/by", snapshotBy server);
                     ("/api/static", staticSnapshot server) ] |}.

(** ** The response a client gets *)

(** [response_of] replays on a net/http response writer the calls of a
    trace, every [Write] taken as done.  It gives what the calls of the
    handler have sent; what the server adds of its own is left out. *)

(** The state of a net/http response writer: the header map being
    built, and, once the status line is written, the status with the
    header as it stood at that moment, and the body bytes so far.  The
    first [WriteHeader] fixes the status and the header; a later
    [WriteHeader] or [Header().Set] changes nothing that is sent; a
    [Write] before any [WriteHeader] sends status 200 first. *)
Record Response : Type := {
  header : gmap string string;
  committed : option (Z * gmap string string);
  body : string
}.

Definition Response_init : Response :=
  {| header := ∅; committed := None; body := "" |}.

Definition commit (code : Z) (w : Response) : Response :=
  match committed w with
  | Some _ => w
  | None => {| header := header w;
               committed := Some (code, header w);
               body := body w |}
  end.

Definition writer_step (w : Response) (e : Event) : Response :=
  match e with
  | WriteHeader code => commit code w
  | HeaderSet k v =>
      {| header := <[k := v]> (header w);
         committed := committed w;
         body := body w |}
  | Write b =>
      let w' := commit StatusOK w in
      {| header := header w';
         committed := committed w';
         body := body w' +:+ b |}
  | _ => w
  end.

Definition response_of (t : list Event) : Response :=
  fold_left writer_step t Response_init.

Definition sent_status (w : Response) : option Z :=
  fst <$> committed w.

Definition sent_header (w : Response) (key : string) : option string :=
  match committed w with
  | Some (_, h) => h !! key
  | None => None
  end.

End Backend.

Arguments Server : clear implicits.
Arguments ServerConfig : clear implicits.
Arguments Env : clear implicits.
Arguments Event : clear implicits.
Arguments M : clear implicits.
Arguments HttpServer : clear implicits.

(** ** Observations on traces *)

Section Observations.

Context {Broker MonitorHistoricalReader Subscriber : Type}.
Local Abbreviation Event := (Event Broker MonitorHistoricalReader Subscriber).

(** A read of the historical store, whichever tier. *)
Definition is_store_read (e : Event) : bool :=
  match e with
  | CallReadRaw _ _ | CallReadHourly _ _ | CallReadDaily _ _ => true
  | _ => false
  end.

Definition is_NewSubscriber (e : Event) : bool :=
  match e with
  | CallNewSubscriber _ _ => true
  | _ => false
  end.

Definition is_Listen (e : Event) : bool :=
  match e with
  | CallListen _ => true
  | _ => false
  end.

Definition is_Sleep (e : Event) : bool :=
  match e with
  | Sleep _ => true
  | _ => false
  end.

(** What reaches the client of a stream: the writes and the flushes. *)
Definition is_Write_or_Flush (e : Event) : bool :=
  match e with
  | Write _ | Flush => true
  | _ => false
  end.

(** The calls of the delivery loop. *)
Definition is_loop_event (e : Event) : bool :=
  is_Write_or_Flush e || is_Sleep e || is_Listen e.

(** The [select] evaluations that run: the loop ends with the first one
    that takes the cancellation case. *)
Fixpoint iterations (sched : list Select) : list Select :=
  match sched with
  | [] => []
  | CtxDone :: _ => [CtxDone]
  | sel :: sched' => sel :: iterations sched'
  end.

(** The samples received by the iterations that run. *)
Fixpoint received (sched : list Select) : list MonitorHistorical :=
  match sched with
  | [] => []
  | CtxDone :: _ => []
  | Recv data _ :: sched' => data :: received sched'
  | NoneReady :: sched' => received sched'
  end.

(** The iterations that run and find no case ready. *)
Fixpoint idle_polls (sched : list Select) : nat :=
  match sched with
  | [] => 0
  | CtxDone :: _ => 0
  | Recv _ _ :: sched' => idle_polls sched'
  | NoneReady :: sched' => S (idle_polls sched')
  end.

Definition is_CtxDone (sel : Select) : bool :=
  match sel with
  | CtxDone => true
  | _ => false
  end.

Definition is_Log (e : Event) : bool :=
  match e with
  | Log _ => true
  | _ => false
  end.

(** The calls on the response writer that fix what is sent. *)
Definition is_header_call (e : Event) : bool :=
  match e with
  | WriteHeader _ | HeaderSet _ _ => true
  | _ => false
  end.

(** The bytes handed to [w.Write], in order. *)
Fixpoint written (t : list Event) : string :=
  match t with
  | [] => ""
  | Write b :: t' => b +:+ written t'
  | _ :: t' => written t'
  end.

(** The samples received by the iterations that run, each with the
    answer of its write. *)
Fixpoint deliveries (sched : list Select)
  : list (MonitorHistorical * option string) :=
  match sched with
  | [] => []
  | CtxDone :: _ => []
  | Recv data werr :: sched' => (data, werr) :: deliveries sched'
  | NoneReady :: sched' => deliveries sched'
  end.

End Observations.

(** ** Streaming connections *)

Section Connections.

Context {Broker MonitorHistoricalReader Subscriber Monitor : Type}.
Variable env : Env Broker MonitorHistoricalReader Subscriber Monitor.
Variable s : Server Broker MonitorHistoricalReader.

(** The bytes written for one sample (lines 101 and 170). *)
Definition sse_event (data : MonitorHistorical) : string :=
  "data: " +:+ marshaled_bytes (json_Marshal_sample env data) +:+ nl +:+ nl.

(** A connection of a streaming endpoint that has entered its delivery
    loop: the writer is a flusher, the ids asked for (in [snapshotBy])
    have passed the check, and [NewSubscriber] has answered with [sub].
    The connection is the handler applied to its writer and its request;
    what remains is the schedule of its [select] statements. *)
Inductive Streaming :
  (list Select -> M Broker MonitorHistoricalReader Subscriber Outcome) ->
  Subscriber -> Prop :=
| Streaming_overview (q : gmap string (list string)) (sub : Subscriber) :
    NewSubscriber env (centralBroker s) (monitorIds env) = Ok sub ->
    Streaming (snapshotOverview env s true q) sub
| Streaming_by (q : gmap string (list string)) (sub : Subscriber) :
    Values_Get q "ids" ≠ "" ->
    first_unknown env (strings_Split_comma (Values_Get q "ids")) = None ->
    NewSubscriber env (centralBroker s)
      (strings_Split_comma (Values_Get q "ids")) = Ok sub ->
    Streaming (snapshotBy env s true q) sub.

(** The lines logged for one delivery: one for a serialization that
    failed, one for a write that failed. *)
Definition delivery_logs (d : MonitorHistorical * option string)
  : list (Event Broker MonitorHistoricalReader Subscriber) :=
  match json_Marshal_sample env d.1 with
  | Err e => [Log ("failed to marshal data: " +:+ e)]
  | Ok _ => []
  end
  ++ match d.2 with
     | Some e => [Log ("failed to write data: " +:+ e)]
     | None => []
     end.

(** The text of a stream: the events of the samples, in order. *)
Fixpoint stream_body (samples : list MonitorHistorical) : string :=
  match samples with
  | [] => ""
  | data :: samples' => sse_event data +:+ stream_body samples'
  end.

(** The resolution a request to [staticSnapshot] selects: the value of
    [interval], with hourly for the empty string (lines 192 to 202). *)
Inductive Tier : Type := Raw | Hourly | Daily.

Definition tier_of (interval : string) : option Tier :=
  if String.eqb interval "" then Some Hourly
  else if String.eqb interval "hourly" then Some Hourly
  else if String.eqb interval "daily" then Some Daily
  else if String.eqb interval "raw" then Some Raw
  else None.

(** The read of the store that belongs to a resolution, and its answer. *)
Definition read_call (tier : Tier) (id : string)
  : Event Broker MonitorHistoricalReader Subscriber :=
  match tier with
  | Raw => CallReadRaw (historicalReader s) id
  | Hourly => CallReadHourly (historicalReader s) id
  | Daily => CallReadDaily (historicalReader s) id
  end.

Definition read_answer (tier : Tier) (id : string)
  : result (list MonitorHistorical) :=
  match tier with
  | Raw => ReadRawHistorical env (historicalReader s) id
  | Hourly => ReadHourlyHistorical env (historicalReader s) id
  | Daily => ReadDailyHistorical env (historicalReader s) id
  end.

End Connections.

(** ** The migration (migrations/20240523085502_monitor_historical.sql)

    The statements of the migration act on the catalog of the database:
    the relations (tables and indexes) by name.  [CREATE TABLE] and
    [CREATE INDEX] fail when the name is taken, [CREATE INDEX] also when
    the table or one of the columns does not exist; [DROP TABLE] fails
    when there is no such table and removes the table with the indexes on
    it.  A migration is one transaction: the first failing statement
    fails it. *)

Inductive SqlType : Type :=
| VARCHAR (n : Z)
| SMALLINT
| INTEGER
| TIMESTAMPTZ.

Inductive SqlDefault : Type :=
| DefaultNumber (n : Z)
| CURRENT_TIMESTAMP.

Record Column : Type := {
  col_name : string;
  col_type : SqlType;
  col_not_null : bool;
  col_default : option SqlDefault
}.

Inductive Relation : Type :=
| Table (columns : list Column)
| Index (table : string) (columns : list string).

Inductive Statement : Type :=
| CREATE_TABLE (name : string) (columns : list Column)
| CREATE_INDEX (name : string) (table : string) (columns : list string)
| DROP_TABLE (name : string).

(** Whether a relation is an index on the table [table]. *)
Definition index_on (table : string) (r : Relation) : bool :=
  match r with
  | Index t _ => String.eqb t table
  | Table _ => false
  end.

Definition has_column (columns : list Column) (c : string) : bool :=
  existsb (λ col, String.eqb (col_name col) c) columns.

Definition exec (cat : gmap string Relation) (st : Statement)
  : result (gmap string Relation) :=
  match st with
  | CREATE_TABLE name columns =>
      match cat !! name with
      | Some _ => Err ("relation " +:+ name +:+ " already exists")
      | None => Ok (<[name := Table columns]> cat)
      end
  | CREATE_INDEX name table columns =>
      match cat !! table with
      | Some (Table tcols) =>
          if negb (forallb (has_column tcols) columns)
          then Err ("column of " +:+ table +:+ " does not exist")
          else match cat !! name with
               | Some _ => Err ("relation " +:+ name +:+ " already exists")
               | None => Ok (<[name := Index table columns]> cat)
               end
      | _ => Err ("relation " +:+ table +:+ " does not exist")
      end
  | DROP_TABLE name =>
      match cat !! name with
      | Some (Table _) =>
          Ok (filter (λ kr, kr.1 ≠ name ∧ index_on name kr.2 = false) cat)
      | _ => Err ("table " +:+ name +:+ " does not exist")
      end
  end.

Fixpoint exec_all (cat : gmap string Relation) (sts : list Statement)
  : result (gmap string Relation) :=
  match sts with
  | [] => Ok cat
  | st :: sts' =>
      match exec cat st with
      | Ok cat' => exec_all cat' sts'
      | Err e => Err e
      end
  end.

Definition raw_columns : list Column :=
  [ {| col_name := "monitor_id"; col_type := VARCHAR 255;
       col_not_null := true; col_default := None |};
    {| col_name := "status"; col_type := SMALLINT;
       col_not_null := true; col_default := None |};
    {| col_name := "latency"; col_type := INTEGER;
       col_not_null := true; col_default := Some (DefaultNumber 0) |};
    {| col_name := "timestamp"; col_type := TIMESTAMPTZ;
       col_not_null := true; col_default := Some CURRENT_TIMESTAMP |} ].

Definition aggregate_columns : list Column :=
  [ {| col_name := "timestamp"; col_type := TIMESTAMPTZ;
       col_not_null := true; col_default := None |};
    {| col_name := "monitor_id"; col_type := VARCHAR 255;
       col_not_null := true; col_default := None |};
    {| col_name := "status"; col_type := SMALLINT;
       col_not_null := true; col_default := None |};
    {| col_name := "latency"; col_type := INTEGER;
       col_not_null := true; col_default := Some (DefaultNumber 0) |};
    {| col_name := "created_at"; col_type := TIMESTAMPTZ;
       col_not_null := true; col_default := Some CURRENT_TIMESTAMP |} ].

(** [-- +goose Up] *)
Definition migration_up : list Statement :=
  [ CREATE_TABLE "monitor_historical" raw_columns;
    CREATE_INDEX "monitor_historical_monitor_id_idx"
      "monitor_historical" ["monitor_id"];
    CREATE_TABLE "monitor_historical_hourly_aggregate" aggregate_columns;
    CREATE_INDEX "monitor_historical_hourly_aggregate_monitor_id_timestamp_idx"
      "monitor_historical_hourly_aggregate" ["monitor_id"; "timestamp"];
    CREATE_TABLE "monitor_historical_daily_aggregate" aggregate_columns;
    CREATE_INDEX "monitor_historical_daily_aggregate_monitor_id_timestamp_idx"
      "monitor_historical_daily_aggregate" ["monitor_id"; "timestamp"] ].

(** [-- +goose Down] *)
Definition migration_down : list Statement :=
  [ DROP_TABLE "monitor_historical";
    DROP_TABLE "monitor_historical_hourly_aggregate";
    DROP_TABLE "monitor_historical_daily_aggregate" ].

(** The names the migration gives to tables and to relations. *)
Definition migration_tables : list string :=
  [ "monitor_historical";
    "monitor_historical_hourly_aggregate";
    "monitor_historical_daily_aggregate" ].

Definition migration_relations : list string :=
  migration_tables
  ++ [ "monitor_historical_monitor_id_idx";
       "monitor_historical_hourly_aggregate_monitor_id_timestamp_idx";
       "monitor_historical_daily_aggregate_monitor_id_timestamp_idx" ].

(** The name a statement gives to a new relation, the table it drops. *)
Definition created (st : Statement) : option string :=
  match st with
  | CREATE_TABLE name _ | CREATE_INDEX name _ _ => Some name
  | DROP_TABLE _ => None
  end.

Definition dropped (st : Statement) : option string :=
  match st with
  | DROP_TABLE name => Some name
  | _ => None
  end.

(** A catalog in which every index is on a table that exists. *)
Definition is_table (cat : gmap string Relation) (name : string) : bool :=
  match cat !! name with
  | Some (Table _) => true
  | _ => false
  end.

Definition index_has_table (cat : gmap string Relation) (r : Relation) : bool :=
  match r with
  | Index table _ => is_table cat table
  | Table _ => true
  end.

Definition indexes_have_tables (cat : gmap string Relation) : Prop :=
  map_Forall (λ _ r, index_has_table cat r = true) cat.


(** ** Concrete collaborators, for the examples *)

Module Examples.

(** Two monitors; subscribing works and gives subscriber 7; the raw tier
    cannot be read; a sample cannot be serialized. *)
Definition env0 : Env unit unit nat unit :=
  {| monitorIds := ["a"; "b"];
     NewSubscriber := λ _ _, Ok 7%nat;
     ReadRawHistorical := λ _ _, Err "connection refused";
     ReadHourlyHistorical := λ _ _, Ok [];
     ReadDailyHistorical := λ _ _, Ok [];
     json_Marshal_sample := λ _, Err "unsupported value";
     json_Marshal_error := λ msg, Ok (error_json msg);
     json_Marshal_snapshot := λ _ _, Ok "{}";
     Monitor_zero := tt |}.

(** As [env0], but no tier can be read. *)
Definition env_store_down : Env unit unit nat unit :=
  {| monitorIds := ["a"; "b"];
     NewSubscriber := λ _ _, Ok 7%nat;
     ReadRawHistorical := λ _ _, Err "connection refused";
     ReadHourlyHistorical := λ _ _, Err "connection refused";
     ReadDailyHistorical := λ _ _, Err "connection refused";
     json_Marshal_sample := λ _, Err "unsupported value";
     json_Marshal_error := λ msg, Ok (error_json msg);
     json_Marshal_snapshot := λ _ _, Ok "{}";
     Monitor_zero := tt |}.

(** As [env0], but subscribing fails and samples serialize. *)
Definition env_no_sub : Env unit unit nat unit :=
  {| monitorIds := ["a"; "b"];
     NewSubscriber := λ _ _, Err "no broker";
     ReadRawHistorical := λ _ _, Ok [];
     ReadHourlyHistorical := λ _ _, Ok [];
     ReadDailyHistorical := λ _ _, Ok [];
     json_Marshal_sample := λ d, Ok ("{" +:+ monitor_id d +:+ "}");
     json_Marshal_error := λ msg, Ok (error_json msg);
     json_Marshal_snapshot := λ _ _, Ok "{}";
     Monitor_zero := tt |}.

(** As [env_no_sub], but subscribing works. *)
Definition env_ok : Env unit unit nat unit :=
  {| monitorIds := ["a"; "b"];
     NewSubscriber := λ _ _, Ok 7%nat;
     ReadRawHistorical := λ _ _, Ok [];
     ReadHourlyHistorical := λ _ _, Ok [];
     ReadDailyHistorical := λ _ _, Ok [];
     json_Marshal_sample := λ d, Ok ("{" +:+ monitor_id d +:+ "}");
     json_Marshal_error := λ msg, Ok (error_json msg);
     json_Marshal_snapshot := λ _ _, Ok "{}";
     Monitor_zero := tt |}.

Definition srv0 : Server unit unit :=
  {| historicalReader := None; centralBroker := None |}.

Definition cfg0 : ServerConfig unit unit :=
  {| SSLRedirect := false;
     Environment := "development";
     Hostname := "localhost";
     Port := "8080";
     StaticPath := "./dist";
     cfg_MonitorHistoricalReader := Some tt;
     cfg_CentralBroker := Some tt |}.

(** Requests to /api/static for monitor a: the raw tier, no interval,
    the daily tier, an interval that does not exist. *)
Definition q_raw : gmap string (list string) :=
  {[ "id" := ["a"]; "interval" := ["raw"] ]}.
Definition q_default : gmap string (list string) :=
  {[ "id" := ["a"] ]}.
Definition q_daily : gmap string (list string) :=
  {[ "id" := ["a"]; "interval" := ["daily"] ]}.
Definition q_weekly : gmap string (list string) :=
  {[ "id" := ["a"]; "interval" := ["weekly"] ]}.

(** Requests to /api/by: two known monitors; a known and an unknown
    one. *)
Definition q_ids_ab : gmap string (list string) :=
  {[ "ids" := ["a,b"] ]}.
Definition q_ids_unknown : gmap string (list string) :=
  {[ "ids" := ["a,zzz"] ]}.

(** A database that has a table of its own, with an index. *)
Definition cat_users : gmap string Relation :=
  {[ "users" := Table [ {| col_name := "name"; col_type := VARCHAR 64;
                           col_not_null := true; col_default := None |} ];
     "users_name_idx" := Index "users" ["name"] ]}.

(** As [env_ok], but the document of [staticSnapshot] does not
    serialize. *)
Definition env_bad_document : Env unit unit nat unit :=
  {| monitorIds := ["a"; "b"];
     NewSubscriber := λ _ _, Ok 7%nat;
     ReadRawHistorical := λ _ _, Ok [];
     ReadHourlyHistorical := λ _ _, Ok [];
     ReadDailyHistorical := λ _ _, Ok [];
     json_Marshal_sample := λ d, Ok ("{" +:+ monitor_id d +:+ "}");
     json_Marshal_error := λ msg, Ok (error_json msg);
     json_Marshal_snapshot := λ _ _, Err "unsupported type";
     Monitor_zero := tt |}.

Definition sample_a : MonitorHistorical :=
  {| monitor_id := "a"; status := 1; latency := 12; timestamp := 1716454502 |}.

Definition sample_b : MonitorHistorical :=
  {| monitor_id := "b"; status := 0; latency := 30; timestamp := 1716454503 |}.

End Examples.

(** ** Properties of the handlers *)

Section Properties.

Context {Broker MonitorHistoricalReader Subscriber Monitor : Type}.
Variable env : Env Broker MonitorHistoricalReader Subscriber Monitor.
Variable s : Server Broker MonitorHistoricalReader.

Local Abbreviation Event := (Event Broker MonitorHistoricalReader Subscriber).
Local Abbreviation M := (M Broker MonitorHistoricalReader Subscriber).

(** *** url.Values *)

Lemma Values_Get_insert_eq (q : gmap string (list string)) key v :
  Values_Get (<[key := [v]]> q) key = v.
Proof. unfold Values_Get. by rewrite lookup_insert_eq. Qed.

Lemma Values_Get_insert_ne (q : gmap string (list string)) key key' vs :
  key ≠ key' -> Values_Get (<[key := vs]> q) key' = Values_Get q key'.
Proof. intros Hne. unfold Values_Get. by rewrite lookup_insert_ne. Qed.

(** *** The answers without a stream *)

Lemma bad_request_run msg :
  (bad_request msg : M Outcome) =
    ([WriteHeader StatusBadRequest;
      HeaderSet "Content-Type" "application/json";
      Write (error_json_sp msg)], Returned).
Proof. reflexivity. Qed.

Lemma static_reply_no_read monitor h :
  List.filter is_store_read (trace (static_reply env monitor h)) = [].
Proof.
  unfold static_reply.
  destruct (json_Marshal_snapshot env monitor h) as [data|err]; [reflexivity|].
  destruct (json_Marshal_error env err); reflexivity.
Qed.

Lemma after_read_no_read monitor r :
  List.filter is_store_read (trace (after_read env monitor r)) = [].
Proof.
  destruct r as [h|err]; [apply static_reply_no_read | reflexivity].
Qed.

(** *** staticSnapshot *)

(** C4. A request to [staticSnapshot] whose [interval] parameter has a
    value other than raw, hourly and daily is answered with status 400
    and a JSON error body, and no tier of the historical store is read.
    (The body names the interval, unless the [id] parameter is missing,
    which is reported first.) *)
Theorem staticSnapshot_unsupported_interval
  (w : bool) (q : gmap string (list string)) (sched : list Select) :
  Values_Get q "interval" ≠ "" ->
  Values_Get q "interval" ≠ "raw" ->
  Values_Get q "interval" ≠ "hourly" ->
  Values_Get q "interval" ≠ "daily" ->
  outcome (staticSnapshot env s w q sched) = Returned
  ∧ sent_status (response_of (trace (staticSnapshot env s w q sched)))
    = Some StatusBadRequest
  ∧ body (response_of (trace (staticSnapshot env s w q sched)))
    = error_json_sp (if String.eqb (Values_Get q "id") ""
                     then "id is required"
                     else "interval must be hourly, daily, or raw")
  ∧ List.filter is_store_read (trace (staticSnapshot env s w q sched)) = [].
Proof.
  intros Hne Hraw Hhourly Hdaily. unfold staticSnapshot.
  destruct (String.eqb_spec (Values_Get q "id") "") as [Hid|Hid].
  { rewrite bad_request_run. by vm_compute. }
  destruct (String.eqb_spec (Values_Get q "interval") "") as [?|_]; [done|].
  destruct (String.eqb_spec (Values_Get q "interval") "hourly") as [?|_]; [done|].
  destruct (String.eqb_spec (Values_Get q "interval") "daily") as [?|_]; [done|].
  destruct (String.eqb_spec (Values_Get q "interval") "raw") as [?|_]; [done|].
  cbn [negb andb]. rewrite bad_request_run. by vm_compute.
Qed.

(** C9. A request to [staticSnapshot] with a known monitor id and no
    [interval] parameter runs exactly as the same request with
    [interval=hourly], and the only read of the store it makes is one
    [ReadHourlyHistorical] for that monitor. *)
Theorem staticSnapshot_default_hourly
  (w : bool) (q : gmap string (list string)) (sched : list Select) :
  Values_Get q "id" ≠ "" ->
  slices_Contains (monitorIds env) (Values_Get q "id") = true ->
  Values_Get q "interval" = "" ->
  staticSnapshot env s w q sched
    = staticSnapshot env s w (<["interval" := ["hourly"]]> q) sched
  ∧ List.filter is_store_read (trace (staticSnapshot env s w q sched))
    = [CallReadHourly (historicalReader s) (Values_Get q "id")].
Proof.
  intros Hid Hknown Hint. unfold staticSnapshot.
  rewrite Values_Get_insert_eq, Values_Get_insert_ne by done.
  rewrite Hint.
  destruct (String.eqb_spec (Values_Get q "id") "") as [?|_]; [done|].
  rewrite Hknown. cbn.
  split; [reflexivity|].
  f_equal. apply after_read_no_read.
Qed.

(** *** The delivery loop *)

Ltac by_loop_induction :=
  let IH := fresh "IH" in
  intros sched; induction sched as [|[|data werr|] sched' IH];
  unfold trace, outcome, sse_event in *; cbn;
  [ reflexivity
  | reflexivity
  | destruct (json_Marshal_sample env data), werr; cbn; by rewrite IH
  | by rewrite ?IH ].

Lemma stream_writes (sub : Subscriber) : forall sched,
  List.filter is_Write_or_Flush (trace (stream env sub sched))
  = flat_map (λ data, [Write (sse_event env data); Flush]) (received sched).
Proof. by_loop_induction. Qed.

Lemma stream_sleeps (sub : Subscriber) : forall sched,
  List.filter is_Sleep (trace (stream env sub sched))
  = repeat (Sleep 10) (idle_polls sched).
Proof. by_loop_induction. Qed.

Lemma stream_listens (sub : Subscriber) : forall sched,
  List.filter is_Listen (trace (stream env sub sched))
  = repeat (CallListen sub) (length (iterations sched)).
Proof. by_loop_induction. Qed.

Lemma stream_no_subscribe (sub : Subscriber) : forall sched,
  List.filter is_NewSubscriber (trace (stream env sub sched)) = [].
Proof. by_loop_induction. Qed.

Lemma stream_outcome (sub : Subscriber) : forall sched,
  outcome (stream env sub sched)
  = if existsb is_CtxDone sched then Returned else Looping.
Proof. by_loop_induction. Qed.

(** One delivery, whatever fails: the serialization error, if any, is
    logged and the event is written all the same; the write error, if any,
    is logged; the flush follows and the loop goes on with the rest of the
    schedule. *)
Lemma stream_delivery (sub : Subscriber) data werr sched :
  stream env sub (Recv data werr :: sched)
  = (CallListen sub
       :: trace (log_if_err "failed to marshal data: "
                   (err_of (json_Marshal_sample env data)))
       ++ Write (sse_event env data)
       :: trace (log_if_err "failed to write data: " werr)
       ++ Flush :: trace (stream env sub sched),
     outcome (stream env sub sched)).
Proof.
  unfold sse_event. cbn.
  by destruct (json_Marshal_sample env data), werr.
Qed.

(** Before the loop a connection makes no write, flush, sleep or
    [Listen], and one [NewSubscriber]. *)
Lemma Streaming_enters_loop h (sub : Subscriber) :
  Streaming env s h sub ->
  exists pre ids,
    (forall sched, h sched
       = (pre ++ trace (stream env sub sched), outcome (stream env sub sched)))
    ∧ List.filter is_loop_event pre = []
    ∧ List.filter is_NewSubscriber pre = [CallNewSubscriber (centralBroker s) ids].
Proof.
  intros [q sub' Hsub | q sub' Hids Hknown Hsub].
  - exists [CallNewSubscriber (centralBroker s) (monitorIds env)], (monitorIds env).
    split; [|done]. intros sched.
    unfold snapshotOverview, call_NewSubscriber. cbn. by rewrite Hsub.
  - eexists (_ :: _ :: _ :: _ :: [_]), _.
    split; [|split].
    + intros sched. unfold snapshotBy, call_NewSubscriber. cbn.
      destruct (String.eqb_spec (Values_Get q "ids") "") as [?|_]; [done|].
      rewrite Hknown. cbn. rewrite Hsub. reflexivity.
    + reflexivity.
    + reflexivity.
Qed.

(** *** Who subscribes, and with what *)

Lemma subscribe_failed_run err :
  subscribe_failed env err =
    ([WriteHeader StatusInternalServerError;
      HeaderSet "Content-Type" "application/json";
      Write (match json_Marshal_error env
                     ("failed to subscribe to endpoints: " +:+ err) with
             | Ok errBytes => errBytes
             | Err _ => error_json_sp "internal server error"
             end)], Returned).
Proof.
  unfold subscribe_failed.
  by destruct (json_Marshal_error env _).
Qed.

Lemma first_unknown_None ids :
  first_unknown env ids = None
  <-> forall id, id ∈ ids -> slices_Contains (monitorIds env) id = true.
Proof.
  induction ids as [|id ids IH]; cbn.
  - split; [|done]. intros _ id Hin. by apply elem_of_nil in Hin.
  - destruct (slices_Contains (monitorIds env) id) eqn:Hc; cbn.
    + rewrite IH. split.
      * intros H id' [->|Hin]%elem_of_cons; auto.
      * intros H id' Hin. apply H. by right.
    + split; [done|]. intros H.
      specialize (H id (list_elem_of_here _ _)). congruence.
Qed.

Lemma snapshotOverview_subscribes w q sched :
  List.filter is_NewSubscriber (trace (snapshotOverview env s w q sched))
  = if w then [CallNewSubscriber (centralBroker s) (monitorIds env)] else [].
Proof.
  unfold snapshotOverview. destruct w; [|reflexivity]. cbn.
  f_equal.
  destruct (NewSubscriber env _ _) as [sub|err].
  - apply stream_no_subscribe.
  - by rewrite subscribe_failed_run.
Qed.

Lemma snapshotBy_subscribes w q sched :
  List.filter is_NewSubscriber (trace (snapshotBy env s w q sched))
  = if w && negb (String.eqb (Values_Get q "ids") "")
         && bool_decide
              (first_unknown env (strings_Split_comma (Values_Get q "ids")) = None)
    then [CallNewSubscriber (centralBroker s)
            (strings_Split_comma (Values_Get q "ids"))]
    else [].
Proof.
  unfold snapshotBy. destruct w; [|reflexivity]. cbn [negb andb].
  destruct (String.eqb (Values_Get q "ids") ""); [reflexivity|].
  destruct (first_unknown env _) as [id|]; [reflexivity|]. cbn.
  f_equal.
  destruct (NewSubscriber env _ _) as [sub|err].
  - apply stream_no_subscribe.
  - by rewrite subscribe_failed_run.
Qed.

Lemma staticSnapshot_no_subscribe w q sched :
  List.filter is_NewSubscriber (trace (staticSnapshot env s w q sched)) = [].
Proof.
  assert (Hreply : forall monitor r,
    List.filter is_NewSubscriber (trace (after_read env monitor r)) = []).
  { intros monitor [h|err]; [|reflexivity]. unfold after_read, static_reply.
    destruct (json_Marshal_snapshot env monitor h) as [data|err]; [reflexivity|].
    by destruct (json_Marshal_error env err). }
  unfold staticSnapshot.
  repeat match goal with
         | |- context [if ?b then _ else _] => destruct b; try reflexivity
         end; apply Hreply.
Qed.

Lemma filter_singleton_elem (f : Event -> bool) (t : list Event) (e x : Event) :
  f e = true -> e ∈ t -> List.filter f t = [x] -> e = x.
Proof.
  intros Hf Hin Heq.
  assert (Hmem : In e (List.filter f t)).
  { apply filter_In. split; [by apply list_elem_of_In | done]. }
  rewrite Heq in Hmem. destruct Hmem as [->|[]]. reflexivity.
Qed.

Lemma filter_nil_elem (f : Event -> bool) (t : list Event) (e : Event) :
  f e = true -> e ∈ t -> List.filter f t = [] -> False.
Proof.
  intros Hf Hin Heq.
  assert (Hmem : In e (List.filter f t)).
  { apply filter_In. split; [by apply list_elem_of_In | done]. }
  by rewrite Heq in Hmem.
Qed.

Lemma filter_nil_weaken (f g : Event -> bool) (t : list Event) :
  (forall e, g e = true -> f e = true) ->
  List.filter f t = [] -> List.filter g t = [].
Proof.
  intros Hfg. induction t as [|e t IH]; cbn; [done|].
  destruct (f e) eqn:Hf; [discriminate|]. intros Hnil.
  destruct (g e) eqn:Hg; [|auto].
  apply Hfg in Hg. congruence.
Qed.

Lemma loop_event_Sleep (e : Event) : is_Sleep e = true -> is_loop_event e = true.
Proof. by destruct e. Qed.

Lemma loop_event_Listen (e : Event) : is_Listen e = true -> is_loop_event e = true.
Proof. by destruct e. Qed.

Lemma loop_event_Write_or_Flush (e : Event) :
  is_Write_or_Flush e = true -> is_loop_event e = true.
Proof. by destruct e. Qed.

(** *** The streaming endpoints *)

(** C2, as the code has it.  On a streaming connection the loop polls:
    every [select] that finds neither the cancellation nor a sample ready
    runs [default], which sleeps 10 milliseconds, and the loop goes
    round; there is one sleep of 10 ms per such iteration and no other
    sleep.  The handler returns exactly when an iteration takes the
    cancellation case. *)
Theorem stream_polls_with_sleep h (sub : Subscriber) :
  Streaming env s h sub ->
  forall sched,
    List.filter is_Sleep (trace (h sched))
    = repeat (Sleep 10) (idle_polls sched)
    ∧ outcome (h sched)
      = if existsb is_CtxDone sched then Returned else Looping.
Proof.
  intros (pre & ids & Hrun & Hpre & _)%Streaming_enters_loop sched.
  rewrite Hrun. unfold trace at 1, outcome at 1. cbn [fst snd].
  rewrite List.filter_app, stream_sleeps, stream_outcome.
  split; [|reflexivity].
  by rewrite (filter_nil_weaken _ _ pre loop_event_Sleep Hpre).
Qed.

(** C6. On a streaming connection the writes and flushes are, in order,
    one write followed by one flush for each sample received, and the
    bytes written for a sample are [data: ], the serialization of that
    sample alone, and two line feeds; when the serialization gives the
    JSON text [json] the event is [data: json\n\n]. *)
Theorem stream_one_event_per_sample h (sub : Subscriber) :
  Streaming env s h sub ->
  forall sched,
    List.filter is_Write_or_Flush (trace (h sched))
    = flat_map (λ data, [Write (sse_event env data); Flush]) (received sched)
    ∧ forall data json,
        data ∈ received sched ->
        json_Marshal_sample env data = Ok json ->
        sse_event env data = "data: " +:+ json +:+ nl +:+ nl.
Proof.
  intros (pre & ids & Hrun & Hpre & _)%Streaming_enters_loop sched.
  split.
  - rewrite Hrun. unfold trace at 1. cbn [fst].
    rewrite List.filter_app, stream_writes.
    by rewrite (filter_nil_weaken _ _ pre loop_event_Write_or_Flush Hpre).
  - intros data json _ Hjson. unfold sse_event. by rewrite Hjson.
Qed.

(** C8, as the code has it.  On a streaming connection [Listen] is
    called once by every evaluation of the [select] statement, that is
    once per iteration of the loop, each time on the one subscriber the
    handler created; the handler calls [NewSubscriber] once. *)
Theorem stream_listens_every_iteration h (sub : Subscriber) :
  Streaming env s h sub ->
  forall sched,
    List.filter is_Listen (trace (h sched))
    = repeat (CallListen sub) (length (iterations sched))
    ∧ length (List.filter is_NewSubscriber (trace (h sched))) = 1%nat.
Proof.
  intros (pre & ids & Hrun & Hpre & Hsub)%Streaming_enters_loop sched.
  rewrite Hrun. unfold trace at 1 3. cbn [fst].
  rewrite !List.filter_app, stream_listens, stream_no_subscribe, Hsub.
  split; [|reflexivity].
  by rewrite (filter_nil_weaken _ _ pre loop_event_Listen Hpre).
Qed.

(** C5, as the code has it.  In [snapshotBy] a call of [NewSubscriber]
    is made with the ids of the comma-separated list and only when each
    of them is in [monitorIds]; when an id of the list is unknown the
    handler returns without calling [NewSubscriber], with status 400 if
    the writer is a flusher and with status 412 if it is not. *)
Theorem snapshotBy_checks_ids_first
  (w : bool) (q : gmap string (list string)) (sched : list Select) :
  (forall broker ids,
      CallNewSubscriber broker ids ∈ trace (snapshotBy env s w q sched) ->
      ids = strings_Split_comma (Values_Get q "ids")
      ∧ forall id, id ∈ ids -> slices_Contains (monitorIds env) id = true)
  ∧ ((exists id, id ∈ strings_Split_comma (Values_Get q "ids")
                 ∧ slices_Contains (monitorIds env) id = false) ->
     outcome (snapshotBy env s w q sched) = Returned
     ∧ List.filter is_NewSubscriber (trace (snapshotBy env s w q sched)) = []
     ∧ sent_status (response_of (trace (snapshotBy env s w q sched)))
       = Some (if w then StatusBadRequest else StatusPreconditionFailed)).
Proof.
  split.
  - intros broker ids Hin.
    pose proof (snapshotBy_subscribes w q sched) as Hsub.
    destruct (w && negb (String.eqb (Values_Get q "ids") "")
              && bool_decide (first_unknown env _ = None)) eqn:Hc.
    + apply (filter_singleton_elem _ _ _ _ eq_refl Hin) in Hsub.
      injection Hsub as _ ->. split; [reflexivity|].
      apply first_unknown_None.
      apply andb_prop in Hc as [_ Hc]. by apply bool_decide_eq_true in Hc.
    + by destruct (filter_nil_elem _ _ _ eq_refl Hin Hsub).
  - intros (id & Hin & Hunknown).
    assert (Hsome : first_unknown env
              (strings_Split_comma (Values_Get q "ids")) ≠ None).
    { intros Hnone. rewrite first_unknown_None in Hnone.
      specialize (Hnone id Hin). congruence. }
    unfold snapshotBy. destruct w; [|by vm_compute].
    cbn [negb].
    destruct (String.eqb (Values_Get q "ids") ""); [by vm_compute|].
    destruct (first_unknown env _) as [id'|]; [by vm_compute | done].
Qed.

(** C10. In [snapshotBy], whenever [NewSubscriber] is called and answers
    with an error: the three event-stream headers and status 200 were
    sent before the call; the handler then calls [WriteHeader(500)],
    which changes nothing; and the client gets status 200, content type
    text/event-stream and, as the body, the JSON error object. *)
Theorem snapshotBy_subscribe_error_keeps_200
  (w : bool) (q : gmap string (list string)) (sched : list Select)
  broker ids err :
  CallNewSubscriber broker ids ∈ trace (snapshotBy env s w q sched) ->
  NewSubscriber env broker ids = Err err ->
  exists pre post,
    trace (snapshotBy env s w q sched)
    = pre ++ CallNewSubscriber broker ids :: post
    ∧ sent_status (response_of pre) = Some StatusOK
    ∧ sent_header (response_of pre) "Content-Type" = Some "text/event-stream"
    ∧ sent_header (response_of pre) "Cache-Control" = Some "no-cache"
    ∧ sent_header (response_of pre) "Connection" = Some "keep-alive"
    ∧ WriteHeader StatusInternalServerError ∈ post
    ∧ outcome (snapshotBy env s w q sched) = Returned
    ∧ sent_status (response_of (trace (snapshotBy env s w q sched)))
      = Some StatusOK
    ∧ sent_header (response_of (trace (snapshotBy env s w q sched)))
        "Content-Type"
      = Some "text/event-stream"
    ∧ body (response_of (trace (snapshotBy env s w q sched)))
      = match json_Marshal_error env
                ("failed to subscribe to endpoints: " +:+ err) with
        | Ok errBytes => errBytes
        | Err _ => error_json_sp "internal server error"
        end.
Proof.
  intros Hin Herr.
  pose proof (snapshotBy_subscribes w q sched) as Hsub.
  destruct (w && negb (String.eqb (Values_Get q "ids") "")
            && bool_decide (first_unknown env _ = None)) eqn:Hc;
    [|by destruct (filter_nil_elem _ _ _ eq_refl Hin Hsub)].
  apply (filter_singleton_elem _ _ _ _ eq_refl Hin) in Hsub.
  injection Hsub as -> ->.
  apply andb_prop in Hc as [[-> Hids]%andb_prop Hknown].
  apply bool_decide_eq_true in Hknown.
  apply negb_true_iff in Hids.
  unfold snapshotBy, call_NewSubscriber. cbn [negb].
  rewrite Hids, Hknown. cbn. rewrite Herr, subscribe_failed_run.
  eexists (_ :: _ :: _ :: [_]), _.
  split; [reflexivity|].
  repeat split; try by vm_compute.
  apply list_elem_of_here.
Qed.

End Properties.

(** ** NewServer *)

Section Construction.

Context {Broker MonitorHistoricalReader Subscriber Monitor : Type}.
Variable env : Env Broker MonitorHistoricalReader Subscriber Monitor.

(** C3. Whatever the configuration, the [Server] that [NewServer] builds
    has a nil [centralBroker] (the broker of the configuration is not
    copied), and every call of [NewSubscriber] made by a handler that
    [NewServer] routes gets the nil broker. *)
Theorem NewServer_centralBroker_nil
  (config : ServerConfig Broker MonitorHistoricalReader) :
  centralBroker (the_server (NewServer env config)) = None
  ∧ forall path handler w q sched broker ids,
      (path, handler) ∈ api_routes (NewServer env config) ->
      CallNewSubscriber broker ids ∈ trace (handler w q sched) ->
      broker = None.
Proof.
  split; [reflexivity|].
  intros path handler w q sched broker ids Hroute Hin.
  cbn in Hroute.
  apply elem_of_cons in Hroute as [Heq|Hroute];
    [|apply elem_of_cons in Hroute as [Heq|Hroute];
      [|apply elem_of_cons in Hroute as [Heq|Hroute];
        [|by apply elem_of_nil in Hroute]]];
    injection Heq as -> ->.
  - pose proof (snapshotOverview_subscribes env (the_server (NewServer env config)) w q sched) as Hsub.
    destruct w.
    + apply (filter_singleton_elem _ _ _ _ eq_refl Hin) in Hsub.
      by injection Hsub as -> _.
    + by destruct (filter_nil_elem _ _ _ eq_refl Hin Hsub).
  - pose proof (snapshotBy_subscribes env (the_server (NewServer env config)) w q sched) as Hsub.
    destruct (w && _ && _).
    + apply (filter_singleton_elem _ _ _ _ eq_refl Hin) in Hsub.
      by injection Hsub as -> _.
    + by destruct (filter_nil_elem _ _ _ eq_refl Hin Hsub).
  - pose proof (staticSnapshot_no_subscribe env (the_server (NewServer env config)) w q sched) as Hsub.
    by destruct (filter_nil_elem _ _ _ eq_refl Hin Hsub).
Qed.

End Construction.

(** ** The handlers on concrete requests *)

Import Examples.

(** C1. When the store cannot be read, [staticSnapshot] answers with
    status 500 and stops: nothing is written, the body is empty.  The three
    tiers behave alike (interval raw, the default hourly, daily). *)
Theorem staticSnapshot_read_error_empty_body :
  staticSnapshot env_store_down srv0 true q_raw []
  = ([CallReadRaw None "a"; WriteHeader StatusInternalServerError], Returned)
  ∧ sent_status (response_of (trace (staticSnapshot env_store_down srv0 true q_raw [])))
    = Some StatusInternalServerError
  ∧ body (response_of (trace (staticSnapshot env_store_down srv0 true q_raw [])))
    = ""
  ∧ staticSnapshot env_store_down srv0 true q_default []
    = ([CallReadHourly None "a"; WriteHeader StatusInternalServerError], Returned)
  ∧ staticSnapshot env_store_down srv0 true q_daily []
    = ([CallReadDaily None "a"; WriteHeader StatusInternalServerError], Returned).
Proof. repeat split; by vm_compute. Qed.

(** C2, the claim refuted.  A connection of [snapshotOverview] on which
    two evaluations of [select] find nothing ready sleeps 10 ms twice. *)
Lemma stream_sleeps_counterexample :
  snapshotOverview env_ok srv0 true ∅ [NoneReady; NoneReady]
  = ([CallNewSubscriber None ["a"; "b"];
      CallListen 7%nat; Sleep 10;
      CallListen 7%nat; Sleep 10], Looping).
Proof. by vm_compute. Qed.

(** C5, the claim refuted.  With a writer that is no flusher, a request
    to [snapshotBy] that names the unknown monitor zzz is answered with
    status 412, not 400. *)
Lemma snapshotBy_unknown_id_counterexample :
  slices_Contains (monitorIds env_ok) "zzz" = false
  ∧ strings_Split_comma "a,zzz" = ["a"; "zzz"]
  ∧ snapshotBy env_ok srv0 false q_ids_unknown []
    = ([WriteHeader StatusPreconditionFailed;
        HeaderSet "Content-Type" "application/json";
        Write (error_json_sp "not flusher")], Returned)
  ∧ sent_status (response_of
      (trace (snapshotBy env_ok srv0 false q_ids_unknown [])))
    = Some StatusPreconditionFailed.
Proof. repeat split; by vm_compute. Qed.

(** C7. A sample that cannot be serialized: the error is logged, and the
    handler goes on to write an event with no payload and to flush it. *)
Theorem stream_marshal_error_still_writes :
  snapshotOverview env0 srv0 true ∅ [Recv sample_a None; CtxDone]
  = ([CallNewSubscriber None ["a"; "b"];
      CallListen 7%nat;
      Log "failed to marshal data: unsupported value";
      Write ("data: " +:+ nl +:+ nl);
      Flush;
      CallListen 7%nat], Returned)
  ∧ snapshotBy env0 srv0 true {[ "ids" := ["a"] ]} [Recv sample_a None; CtxDone]
  = ([HeaderSet "Content-Type" "text/event-stream";
      HeaderSet "Cache-Control" "no-cache";
      HeaderSet "Connection" "keep-alive";
      WriteHeader StatusOK;
      CallNewSubscriber None ["a"];
      CallListen 7%nat;
      Log "failed to marshal data: unsupported value";
      Write ("data: " +:+ nl +:+ nl);
      Flush;
      CallListen 7%nat], Returned).
Proof. split; by vm_compute. Qed.

(** C8, the claim refuted.  A connection of [snapshotBy] whose loop runs
    three times calls [Listen] three times on its subscriber. *)
Lemma stream_listen_counterexample :
  snapshotBy env_ok srv0 true {[ "ids" := ["a"] ]}
    [NoneReady; Recv sample_a None; CtxDone]
  = ([HeaderSet "Content-Type" "text/event-stream";
      HeaderSet "Cache-Control" "no-cache";
      HeaderSet "Connection" "keep-alive";
      WriteHeader StatusOK;
      CallNewSubscriber None ["a"];
      CallListen 7%nat; Sleep 10;
      CallListen 7%nat; Write ("data: {a}" +:+ nl +:+ nl); Flush;
      CallListen 7%nat], Returned).
Proof. by vm_compute. Qed.

(** *** The theorems at concrete requests *)

(** C2 on a connection of [snapshotOverview] that idles twice around one
    delivery and is then cancelled. *)
Lemma stream_polls_with_sleep_witness :
  Streaming env_ok srv0 (snapshotOverview env_ok srv0 true ∅) 7%nat
  ∧ List.filter is_Sleep
      (trace (snapshotOverview env_ok srv0 true ∅
                [NoneReady; Recv sample_a None; NoneReady; CtxDone]))
    = [Sleep 10; Sleep 10]
  ∧ outcome (snapshotOverview env_ok srv0 true ∅
               [NoneReady; Recv sample_a None; NoneReady; CtxDone])
    = Returned.
Proof.
  split; [by apply Streaming_overview|].
  apply (stream_polls_with_sleep env_ok srv0 _ 7%nat
           (Streaming_overview env_ok srv0 ∅ 7%nat eq_refl)
           [NoneReady; Recv sample_a None; NoneReady; CtxDone]).
Defined.

(** C3 on a configuration that carries a broker. *)
Lemma NewServer_centralBroker_nil_witness :
  cfg_CentralBroker cfg0 = Some tt
  ∧ ("/api/by", snapshotBy env_ok (the_server (NewServer env_ok cfg0)))
      ∈ api_routes (NewServer env_ok cfg0)
  ∧ CallNewSubscriber None ["a"; "b"]
      ∈ trace (snapshotBy env_ok (the_server (NewServer env_ok cfg0))
                 true q_ids_ab [CtxDone])
  ∧ centralBroker (the_server (NewServer env_ok cfg0)) = None
  ∧ (None : option unit) = None.
Proof.
  split; [reflexivity|].
  assert (Hroute :
    ("/api/by", snapshotBy env_ok (the_server (NewServer env_ok cfg0)))
      ∈ api_routes (NewServer env_ok cfg0)).
  { vm_compute. apply list_elem_of_further, list_elem_of_here. }
  assert (Hcall : CallNewSubscriber None ["a"; "b"]
      ∈ trace (snapshotBy env_ok (the_server (NewServer env_ok cfg0))
                 true q_ids_ab [CtxDone])).
  { vm_compute. do 4 apply list_elem_of_further. apply list_elem_of_here. }
  split; [exact Hroute|]. split; [exact Hcall|].
  split.
  - apply (proj1 (NewServer_centralBroker_nil env_ok cfg0)).
  - apply (proj2 (NewServer_centralBroker_nil env_ok cfg0)
             "/api/by" _ true q_ids_ab [CtxDone] None ["a"; "b"] Hroute Hcall).
Defined.

(** C4 on [interval=weekly]. *)
Lemma staticSnapshot_unsupported_interval_witness :
  Values_Get q_weekly "interval" = "weekly"
  ∧ outcome (staticSnapshot env_ok srv0 true q_weekly []) = Returned
  ∧ sent_status (response_of (trace (staticSnapshot env_ok srv0 true q_weekly [])))
    = Some StatusBadRequest
  ∧ body (response_of (trace (staticSnapshot env_ok srv0 true q_weekly [])))
    = error_json_sp "interval must be hourly, daily, or raw"
  ∧ List.filter is_store_read (trace (staticSnapshot env_ok srv0 true q_weekly []))
    = [].
Proof.
  split; [reflexivity|].
  apply (staticSnapshot_unsupported_interval env_ok srv0 true q_weekly []);
    by vm_compute.
Defined.

(** C5 on a list with an unknown id, sent to a writer that can flush. *)
Lemma snapshotBy_checks_ids_first_witness :
  "zzz" ∈ strings_Split_comma (Values_Get q_ids_unknown "ids")
  ∧ slices_Contains (monitorIds env_ok) "zzz" = false
  ∧ outcome (snapshotBy env_ok srv0 true q_ids_unknown [NoneReady]) = Returned
  ∧ List.filter is_NewSubscriber
      (trace (snapshotBy env_ok srv0 true q_ids_unknown [NoneReady])) = []
  ∧ sent_status (response_of
      (trace (snapshotBy env_ok srv0 true q_ids_unknown [NoneReady])))
    = Some StatusBadRequest.
Proof.
  assert (Hin : "zzz" ∈ strings_Split_comma (Values_Get q_ids_unknown "ids")).
  { vm_compute. apply list_elem_of_further, list_elem_of_here. }
  split; [exact Hin|]. split; [reflexivity|].
  apply (proj2 (snapshotBy_checks_ids_first env_ok srv0 true q_ids_unknown
                  [NoneReady])).
  exists "zzz". split; [exact Hin | reflexivity].
Defined.

(** C6 on a connection of [snapshotBy] that delivers two samples, the
    second with a failing write. *)
Lemma stream_one_event_per_sample_witness :
  Streaming env_ok srv0 (snapshotBy env_ok srv0 true q_ids_ab) 7%nat
  ∧ List.filter is_Write_or_Flush
      (trace (snapshotBy env_ok srv0 true q_ids_ab
                [Recv sample_a None; NoneReady;
                 Recv sample_b (Some "broken pipe"); CtxDone]))
    = [Write ("data: {a}" +:+ nl +:+ nl); Flush;
       Write ("data: {b}" +:+ nl +:+ nl); Flush]
  ∧ sse_event env_ok sample_a = "data: " +:+ "{a}" +:+ nl +:+ nl.
Proof.
  assert (Hs : Streaming env_ok srv0 (snapshotBy env_ok srv0 true q_ids_ab) 7%nat).
  { apply Streaming_by; by vm_compute. }
  split; [exact Hs|].
  split.
  - apply (proj1 (stream_one_event_per_sample env_ok srv0 _ 7%nat Hs
                    [Recv sample_a None; NoneReady;
                     Recv sample_b (Some "broken pipe"); CtxDone])).
  - apply (proj2 (stream_one_event_per_sample env_ok srv0 _ 7%nat Hs
                    [Recv sample_a None; NoneReady;
                     Recv sample_b (Some "broken pipe"); CtxDone])
             sample_a "{a}").
    + apply list_elem_of_here.
    + reflexivity.
Defined.

(** C8 on a connection of [snapshotBy] whose loop runs four times. *)
Lemma stream_listens_every_iteration_witness :
  Streaming env_ok srv0 (snapshotBy env_ok srv0 true q_ids_ab) 7%nat
  ∧ List.filter is_Listen
      (trace (snapshotBy env_ok srv0 true q_ids_ab
                [Recv sample_a None; NoneReady; NoneReady; CtxDone; NoneReady]))
    = [CallListen 7%nat; CallListen 7%nat; CallListen 7%nat; CallListen 7%nat]
  ∧ length (List.filter is_NewSubscriber
      (trace (snapshotBy env_ok srv0 true q_ids_ab
                [Recv sample_a None; NoneReady; NoneReady; CtxDone; NoneReady])))
    = 1%nat.
Proof.
  assert (Hs : Streaming env_ok srv0 (snapshotBy env_ok srv0 true q_ids_ab) 7%nat).
  { apply Streaming_by; by vm_compute. }
  split; [exact Hs|].
  apply (stream_listens_every_iteration env_ok srv0 _ 7%nat Hs
           [Recv sample_a None; NoneReady; NoneReady; CtxDone; NoneReady]).
Defined.

(** C9 on a request with no [interval]. *)
Lemma staticSnapshot_default_hourly_witness :
  Values_Get q_default "interval" = ""
  ∧ staticSnapshot env_ok srv0 true q_default []
    = staticSnapshot env_ok srv0 true (<["interval" := ["hourly"]]> q_default) []
  ∧ List.filter is_store_read (trace (staticSnapshot env_ok srv0 true q_default []))
    = [CallReadHourly None "a"].
Proof.
  split; [reflexivity|].
  apply (staticSnapshot_default_hourly env_ok srv0 true q_default []);
    by vm_compute.
Defined.

(** C10 on a subscription that fails. *)
Lemma snapshotBy_subscribe_error_keeps_200_witness :
  NewSubscriber env_no_sub None ["a"; "b"] = Err "no broker"
  ∧ sent_status (response_of
      (trace (snapshotBy env_no_sub srv0 true q_ids_ab [NoneReady])))
    = Some StatusOK
  ∧ body (response_of
      (trace (snapshotBy env_no_sub srv0 true q_ids_ab [NoneReady])))
    = error_json "failed to subscribe to endpoints: no broker".
Proof.
  split; [reflexivity|].
  assert (Hcall : CallNewSubscriber None ["a"; "b"]
      ∈ trace (snapshotBy env_no_sub srv0 true q_ids_ab [NoneReady])).
  { vm_compute. do 4 apply list_elem_of_further. apply list_elem_of_here. }
  destruct (snapshotBy_subscribe_error_keeps_200 env_no_sub srv0 true q_ids_ab
              [NoneReady] None ["a"; "b"] "no broker" Hcall eq_refl)
    as (pre & post & _ & _ & _ & _ & _ & _ & _ & Hstatus & _ & Hbody).
  split; [exact Hstatus | exact Hbody].
Defined.

(** ** Strings: Split and Join, Contains *)

Lemma append_cons (x : ascii) (a b : string) :
  String x a +:+ b = String x (a +:+ b).
Proof. reflexivity. Qed.

Lemma append_empty_l (a : string) : "" +:+ a = a.
Proof. reflexivity. Qed.

Lemma append_assoc (a b c : string) : (a +:+ b) +:+ c = a +:+ (b +:+ c).
Proof.
  induction a as [|x a IH]; [reflexivity|].
  by rewrite !append_cons, IH.
Qed.

Lemma append_empty_r (a : string) : a +:+ "" = a.
Proof.
  induction a as [|x a IH]; [reflexivity|].
  by rewrite append_cons, IH.
Qed.

Lemma slices_Contains_elem_of (l : list string) (x : string) :
  slices_Contains l x = true <-> x ∈ l.
Proof.
  induction l as [|y l IH]; cbn.
  - split; [done | by intros ?%elem_of_nil].
  - destruct (String.eqb_spec y x) as [->|Hne].
    + split; [intros _; apply list_elem_of_here | done].
    + rewrite IH, elem_of_cons. split; [by right | by intros [?|?]].
Qed.

Lemma split_comma_aux_not_nil cur s : split_comma_aux cur s ≠ [].
Proof.
  revert cur. induction s as [|c s IH]; intros cur; cbn; [done|].
  destruct (Ascii.eqb c ","); [done | apply IH].
Qed.

Lemma split_comma_aux_join cur s :
  strings_Join_comma (split_comma_aux cur s) = cur +:+ s.
Proof.
  revert cur. induction s as [|c s IH]; intros cur; cbn [split_comma_aux].
  - by rewrite append_empty_r.
  - destruct (Ascii.eqb_spec c ",") as [->|Hne].
    + cbn [strings_Join_comma].
      pose proof (split_comma_aux_not_nil "" s) as Hnil.
      destruct (split_comma_aux "" s) as [|p ps] eqn:Hs; [done|].
      rewrite <- Hs, IH. reflexivity.
    + rewrite IH, append_assoc. reflexivity.
Qed.

Lemma has_comma_append a b :
  has_comma (a +:+ b) = has_comma a || has_comma b.
Proof.
  induction a as [|c a IH]; [reflexivity|].
  rewrite append_cons. cbn [has_comma].
  destruct (Ascii.eqb c ","); [reflexivity | apply IH].
Qed.

Lemma split_comma_aux_no_comma cur s :
  has_comma cur = false ->
  Forall (λ part, has_comma part = false) (split_comma_aux cur s).
Proof.
  revert cur. induction s as [|c s IH]; intros cur Hcur; cbn [split_comma_aux].
  - by constructor.
  - destruct (Ascii.eqb c ",") eqn:Hc.
    + constructor; [done | by apply IH].
    + apply IH. rewrite has_comma_append, Hcur. cbn. by rewrite Hc.
Qed.

Lemma split_comma_aux_length cur s :
  length (split_comma_aux cur s) = S (count_commas s).
Proof.
  revert cur. induction s as [|c s IH]; intros cur; cbn; [reflexivity|].
  destruct (Ascii.eqb c ","); cbn; by rewrite IH.
Qed.

(** Splitting at the commas loses nothing: the parts joined by commas
    give the string back, no part has a comma in it, and there is one part
    more than there are commas (so the empty string gives one empty
    part). *)
Theorem strings_Split_comma_round_trip (s : string) :
  strings_Join_comma (strings_Split_comma s) = s
  ∧ Forall (λ part, has_comma part = false) (strings_Split_comma s)
  ∧ length (strings_Split_comma s) = S (count_commas s).
Proof.
  unfold strings_Split_comma. split; [|split].
  - apply split_comma_aux_join.
  - by apply split_comma_aux_no_comma.
  - apply split_comma_aux_length.
Qed.

Lemma split_comma_aux_trailing cur s :
  "" ∈ split_comma_aux cur (s +:+ ",").
Proof.
  revert cur. induction s as [|c s IH]; intros cur.
  - apply list_elem_of_further, list_elem_of_here.
  - rewrite append_cons. cbn [split_comma_aux].
    destruct (Ascii.eqb c ","); [apply list_elem_of_further|]; apply IH.
Qed.

Lemma split_comma_aux_empty_part cur a b :
  "" ∈ split_comma_aux cur (a +:+ ",," +:+ b).
Proof.
  revert cur. induction a as [|c a IH]; intros cur.
  - apply list_elem_of_further, list_elem_of_here.
  - rewrite append_cons. cbn [split_comma_aux].
    destruct (Ascii.eqb c ","); [apply list_elem_of_further|]; apply IH.
Qed.

(** ** The response writer *)

Section Writer.

Context {Broker MonitorHistoricalReader Subscriber : Type}.
Local Abbreviation Event := (Event Broker MonitorHistoricalReader Subscriber).

Lemma response_of_app (t1 t2 : list Event) :
  response_of (t1 ++ t2) = fold_left writer_step t2 (response_of t1).
Proof. apply fold_left_app. Qed.

Lemma commit_committed code (w : Response) :
  committed w = None -> committed (commit code w) = Some (code, header w).
Proof. unfold commit. by intros ->. Qed.

Lemma commit_stable code (w : Response) c :
  committed w = Some c -> commit code w = w.
Proof. unfold commit. by intros ->. Qed.

(** Once the status is sent it stays, whatever the handler calls next. *)
Lemma committed_stable (t : list Event) (w : Response) c :
  committed w = Some c ->
  committed (fold_left writer_step t w) = Some c.
Proof.
  revert w. induction t as [|e t IH]; intros w Hc; [done|].
  cbn [fold_left]. apply IH.
  destruct e; cbn; try done; by rewrite (commit_stable _ _ _ Hc).
Qed.

Lemma written_app (t1 t2 : list Event) :
  written (t1 ++ t2) = written t1 +:+ written t2.
Proof.
  induction t1 as [|e t1 IH]; [reflexivity|].
  destruct e; cbn [app written]; try apply IH.
  by rewrite IH, append_assoc.
Qed.

Lemma body_commit code (w : Response) : body (commit code w) = body w.
Proof. unfold commit. by destruct (committed w). Qed.

(** The body is what was handed to [Write], in order. *)
Lemma body_fold (t : list Event) (w : Response) :
  body (fold_left writer_step t w) = body w +:+ written t.
Proof.
  revert w. induction t as [|e t IH]; intros w.
  - by rewrite append_empty_r.
  - cbn [fold_left]. rewrite IH.
    destruct e; cbn [writer_step written body]; try reflexivity.
    + by rewrite body_commit.
    + by rewrite body_commit, append_assoc.
Qed.

Lemma body_response_of (t : list Event) : body (response_of t) = written t.
Proof. unfold response_of. by rewrite body_fold. Qed.

Lemma written_no_write (t : list Event) :
  List.filter is_Write_or_Flush t = [] -> written t = "".
Proof.
  induction t as [|e t IH]; [done|].
  destruct e; cbn; try done; auto.
Qed.

End Writer.

(** ** More on staticSnapshot *)

Section StaticEndpoint.

Context {Broker MonitorHistoricalReader Subscriber Monitor : Type}.
Variable env : Env Broker MonitorHistoricalReader Subscriber Monitor.
Variable s : Server Broker MonitorHistoricalReader.

Local Abbreviation Event := (Event Broker MonitorHistoricalReader Subscriber).
Local Abbreviation M := (M Broker MonitorHistoricalReader Subscriber).

(** Open every branch of a handler. *)
Ltac handler_cases :=
  repeat match goal with
         | |- context [if ?b then _ else _] => destruct b eqn:?
         | |- context [match ?r with Ok _ => _ | Err _ => _ end] =>
             destruct r eqn:?
         end.

Lemma Values_Get_empty (q : gmap string (list string)) key :
  Values_Get q key = ""
  <-> q !! key = None ∨ q !! key = Some []
      ∨ exists rest, q !! key = Some ("" :: rest).
Proof.
  unfold Values_Get. destruct (q !! key) as [[|v vs]|].
  - split; [tauto | done].
  - split.
    + intros ->. right. right. by exists vs.
    + intros [?|[?|[rest [= -> _]]]]; done.
  - split; [tauto | done].
Qed.

(** A request to [staticSnapshot] with no [id] (the key is absent, has no
    value, or has the empty string as its first value) is answered with
    status 400 and the body [{"error": "id is required"}], whatever the
    interval, and no tier of the store is read. *)
Theorem staticSnapshot_missing_id
  (w : bool) (q : gmap string (list string)) (sched : list Select) :
  (q !! "id" = None ∨ q !! "id" = Some []
   ∨ exists rest, q !! "id" = Some ("" :: rest)) ->
  outcome (staticSnapshot env s w q sched) = Returned
  ∧ sent_status (response_of (trace (staticSnapshot env s w q sched)))
    = Some StatusBadRequest
  ∧ body (response_of (trace (staticSnapshot env s w q sched)))
    = error_json_sp "id is required"
  ∧ List.filter is_store_read (trace (staticSnapshot env s w q sched)) = [].
Proof.
  intros Hid%Values_Get_empty. unfold staticSnapshot. rewrite Hid.
  by vm_compute.
Qed.

Lemma tier_of_None interval :
  tier_of interval = None
  <-> interval ≠ "" ∧ interval ≠ "hourly" ∧ interval ≠ "daily"
      ∧ interval ≠ "raw".
Proof.
  unfold tier_of.
  destruct (String.eqb_spec interval "") as [->|?]; [split; [done | tauto]|].
  destruct (String.eqb_spec interval "hourly") as [->|?];
    [split; [done | tauto]|].
  destruct (String.eqb_spec interval "daily") as [->|?];
    [split; [done | tauto]|].
  destruct (String.eqb_spec interval "raw") as [->|?];
    [split; [done | tauto]|].
  tauto.
Qed.

Lemma tier_of_Some interval tier :
  tier_of interval = Some tier ->
  (interval = "" ∧ tier = Hourly) ∨ (interval = "hourly" ∧ tier = Hourly)
  ∨ (interval = "daily" ∧ tier = Daily) ∨ (interval = "raw" ∧ tier = Raw).
Proof.
  unfold tier_of.
  destruct (String.eqb_spec interval "") as [->|?];
    [intros [= <-]; tauto|].
  destruct (String.eqb_spec interval "hourly") as [->|?];
    [intros [= <-]; tauto|].
  destruct (String.eqb_spec interval "daily") as [->|?];
    [intros [= <-]; tauto|].
  destruct (String.eqb_spec interval "raw") as [->|?];
    [intros [= <-]; tauto | done].
Qed.

(** What [staticSnapshot] does once the id is there and the interval
    names a resolution. *)
Lemma staticSnapshot_tier (w : bool) (q : gmap string (list string))
  (sched : list Select) (tier : Tier) :
  Values_Get q "id" ≠ "" ->
  tier_of (Values_Get q "interval") = Some tier ->
  staticSnapshot env s w q sched
  = if slices_Contains (monitorIds env) (Values_Get q "id")
    then emit (read_call s tier (Values_Get q "id")) ;;
         after_read env (Monitor_zero env)
           (read_answer env s tier (Values_Get q "id"))
    else bad_request "id is not in the list of monitors".
Proof.
  intros Hid Htier. unfold staticSnapshot.
  destruct (String.eqb_spec (Values_Get q "id") "") as [?|_]; [done|].
  apply tier_of_Some in Htier
    as [[-> ->]|[[-> ->]|[[-> ->]|[-> ->]]]];
    by destruct (slices_Contains (monitorIds env) (Values_Get q "id")).
Qed.

(** [staticSnapshot], branch by branch. *)
Lemma staticSnapshot_unfold
  (w : bool) (q : gmap string (list string)) (sched : list Select) :
  staticSnapshot env s w q sched
  = if String.eqb (Values_Get q "id") "" then bad_request "id is required"
    else match tier_of (Values_Get q "interval") with
         | None => bad_request "interval must be hourly, daily, or raw"
         | Some tier =>
             if slices_Contains (monitorIds env) (Values_Get q "id")
             then emit (read_call s tier (Values_Get q "id")) ;;
                  after_read env (Monitor_zero env)
                    (read_answer env s tier (Values_Get q "id"))
             else bad_request "id is not in the list of monitors"
         end.
Proof.
  destruct (String.eqb_spec (Values_Get q "id") "") as [Hid|Hid].
  { unfold staticSnapshot. by rewrite Hid. }
  destruct (tier_of (Values_Get q "interval")) as [tier|] eqn:Htier.
  { by apply staticSnapshot_tier. }
  apply tier_of_None in Htier as (He & Hh & Hd & Hr).
  unfold staticSnapshot.
  destruct (String.eqb_spec (Values_Get q "id") "") as [?|_]; [done|].
  destruct (String.eqb_spec (Values_Get q "interval") "") as [?|_]; [done|].
  destruct (String.eqb_spec (Values_Get q "interval") "hourly") as [?|_]; [done|].
  destruct (String.eqb_spec (Values_Get q "interval") "daily") as [?|_]; [done|].
  destruct (String.eqb_spec (Values_Get q "interval") "raw") as [?|_]; [done|].
  reflexivity.
Qed.

(** Every path through [staticSnapshot]. *)
Ltac static_cases q :=
  rewrite staticSnapshot_unfold;
  destruct (String.eqb (Values_Get q "id") "");
  [|destruct (tier_of (Values_Get q "interval")) as [[]|];
    [destruct (slices_Contains (monitorIds env) (Values_Get q "id"));
     [unfold after_read, static_reply, read_answer; handler_cases|]..|]].

(** A request to [staticSnapshot] for a monitor that is not in
    [monitorIds], with an interval that names a resolution (or none), is
    answered with status 400 and the body
    [{"error": "id is not in the list of monitors"}]; the store is not
    read. *)
Theorem staticSnapshot_unknown_id
  (w : bool) (q : gmap string (list string)) (sched : list Select) (tier : Tier) :
  Values_Get q "id" ≠ "" ->
  Values_Get q "id" ∉ monitorIds env ->
  tier_of (Values_Get q "interval") = Some tier ->
  outcome (staticSnapshot env s w q sched) = Returned
  ∧ sent_status (response_of (trace (staticSnapshot env s w q sched)))
    = Some StatusBadRequest
  ∧ body (response_of (trace (staticSnapshot env s w q sched)))
    = error_json_sp "id is not in the list of monitors"
  ∧ List.filter is_store_read (trace (staticSnapshot env s w q sched)) = [].
Proof.
  intros Hid Hunknown Htier.
  rewrite (staticSnapshot_tier w q sched tier Hid Htier).
  destruct (slices_Contains (monitorIds env) (Values_Get q "id")) eqn:Hc.
  - by apply slices_Contains_elem_of in Hc.
  - by vm_compute.
Qed.

(** A request to [staticSnapshot] for a known monitor reads the store
    once, and reads the resolution the interval names: the raw samples for
    raw, the hourly aggregate for hourly or no interval, the daily
    aggregate for daily; the read is made on the server's reader, for the
    monitor of the request. *)
Theorem staticSnapshot_reads_selected_tier
  (w : bool) (q : gmap string (list string)) (sched : list Select) (tier : Tier) :
  Values_Get q "id" ≠ "" ->
  Values_Get q "id" ∈ monitorIds env ->
  tier_of (Values_Get q "interval") = Some tier ->
  List.filter is_store_read (trace (staticSnapshot env s w q sched))
  = [read_call s tier (Values_Get q "id")].
Proof.
  intros Hid Hknown%slices_Contains_elem_of Htier.
  rewrite (staticSnapshot_tier w q sched tier Hid Htier), Hknown.
  change (List.filter is_store_read
            (read_call s tier (Values_Get q "id")
             :: trace (after_read env (Monitor_zero env)
                         (read_answer env s tier (Values_Get q "id"))))
          = [read_call s tier (Values_Get q "id")]).
  cbn [List.filter]. rewrite after_read_no_read.
  by destruct tier.
Qed.

(** The good case of [staticSnapshot]: for a known monitor, when the
    read of the selected resolution gives the series [h] and the document
    made of the zero [Monitor] and [h] serializes to [data], the handler
    makes that one read, answers with status 200 and writes [data] as the
    body.  The metadata is the zero value on every request. *)
Theorem staticSnapshot_ok
  (w : bool) (q : gmap string (list string)) (sched : list Select)
  (tier : Tier) (h : list MonitorHistorical) (data : string) :
  Values_Get q "id" ≠ "" ->
  Values_Get q "id" ∈ monitorIds env ->
  tier_of (Values_Get q "interval") = Some tier ->
  read_answer env s tier (Values_Get q "id") = Ok h ->
  json_Marshal_snapshot env (Monitor_zero env) h = Ok data ->
  staticSnapshot env s w q sched
  = ([read_call s tier (Values_Get q "id");
      WriteHeader StatusOK;
      HeaderSet "Content-Type" "application/json";
      Write data], Returned)
  ∧ sent_status (response_of (trace (staticSnapshot env s w q sched)))
    = Some StatusOK
  ∧ body (response_of (trace (staticSnapshot env s w q sched))) = data.
Proof.
  intros Hid Hknown%slices_Contains_elem_of Htier Hread Hdata.
  rewrite (staticSnapshot_tier w q sched tier Hid Htier), Hknown, Hread.
  unfold after_read, static_reply. rewrite Hdata.
  split; [reflexivity|]. by destruct tier; vm_compute.
Qed.

(** When the series is read but the document cannot be serialized,
    [staticSnapshot] answers with status 500 and a JSON error body: the
    serialized [{"error": message}], or the fixed
    [{"error": "internal server error"}] when that fails too. *)
Theorem staticSnapshot_marshal_error
  (w : bool) (q : gmap string (list string)) (sched : list Select)
  (tier : Tier) (h : list MonitorHistorical) (err : string) :
  Values_Get q "id" ≠ "" ->
  Values_Get q "id" ∈ monitorIds env ->
  tier_of (Values_Get q "interval") = Some tier ->
  read_answer env s tier (Values_Get q "id") = Ok h ->
  json_Marshal_snapshot env (Monitor_zero env) h = Err err ->
  outcome (staticSnapshot env s w q sched) = Returned
  ∧ sent_status (response_of (trace (staticSnapshot env s w q sched)))
    = Some StatusInternalServerError
  ∧ body (response_of (trace (staticSnapshot env s w q sched)))
    = match json_Marshal_error env err with
      | Ok errBytes => errBytes
      | Err _ => error_json_sp "internal server error"
      end.
Proof.
  intros Hid Hknown%slices_Contains_elem_of Htier Hread Hdata.
  rewrite (staticSnapshot_tier w q sched tier Hid Htier), Hknown, Hread.
  unfold after_read, static_reply. rewrite Hdata.
  by destruct tier, (json_Marshal_error env err); vm_compute.
Qed.

(** [staticSnapshot] calls [WriteHeader] before it sets the content type
    on every path, so no header it sets is sent: when the status is
    written the header map of the handler is empty, on every request. *)
Theorem staticSnapshot_sends_no_header
  (w : bool) (q : gmap string (list string)) (sched : list Select)
  (key : string) :
  sent_header (response_of (trace (staticSnapshot env s w q sched))) key = None.
Proof.
  static_cases q; by vm_compute.
Qed.

(** [staticSnapshot] always returns and always sends a status, which is
    200, 400 or 500; it reads the store at most once, and it never
    subscribes, listens, sleeps or flushes. *)
Theorem staticSnapshot_shape
  (w : bool) (q : gmap string (list string)) (sched : list Select) :
  outcome (staticSnapshot env s w q sched) = Returned
  ∧ (exists code,
       sent_status (response_of (trace (staticSnapshot env s w q sched)))
       = Some code
       ∧ code ∈ [StatusOK; StatusBadRequest; StatusInternalServerError])
  ∧ (length (List.filter is_store_read
               (trace (staticSnapshot env s w q sched))) <= 1)%nat
  ∧ List.filter is_NewSubscriber (trace (staticSnapshot env s w q sched)) = []
  ∧ List.filter is_Listen (trace (staticSnapshot env s w q sched)) = []
  ∧ List.filter is_Sleep (trace (staticSnapshot env s w q sched)) = []
  ∧ Flush ∉ trace (staticSnapshot env s w q sched).
Proof.
  static_cases q;
    (split; [reflexivity|]);
    (split;
     [eexists; split;
      [by vm_compute
      |repeat first [apply list_elem_of_here | apply list_elem_of_further]]|]);
    (split; [cbn; lia|]);
    repeat (split; [reflexivity|]);
    rewrite list_elem_of_In; cbn; intuition discriminate.
Qed.

Lemma staticSnapshot_reads
  (w : bool) (q : gmap string (list string)) (sched : list Select) (e : Event) :
  e ∈ trace (staticSnapshot env s w q sched) ->
  is_store_read e = true ->
  exists tier, e = read_call s tier (Values_Get q "id").
Proof.
  rewrite list_elem_of_In.
  static_cases q; cbn; intros Hin He;
    repeat (destruct Hin as [<-|Hin]; try discriminate);
    try done;
    first [by exists Raw | by exists Hourly | by exists Daily].
Qed.

End StaticEndpoint.

(** ** More on the streaming endpoints *)

Section StreamEndpoints.

Context {Broker MonitorHistoricalReader Subscriber Monitor : Type}.
Variable env : Env Broker MonitorHistoricalReader Subscriber Monitor.
Variable s : Server Broker MonitorHistoricalReader.

Local Abbreviation Event := (Event Broker MonitorHistoricalReader Subscriber).
Local Abbreviation M := (M Broker MonitorHistoricalReader Subscriber).

(** *** The loop *)

Ltac loop_induction sched :=
  let IH := fresh "IH" in
  induction sched as [|[|data werr|] sched IH];
  unfold trace, outcome, sse_event, delivery_logs in *; cbn;
  [ reflexivity
  | reflexivity
  | destruct (json_Marshal_sample env data), werr; cbn; by rewrite IH
  | by rewrite ?IH ].

Lemma written_log_if_err prefix err :
  written (trace (log_if_err prefix err : M unit)) = "".
Proof. by destruct err. Qed.

Lemma stream_written (sub : Subscriber) (sched : list Select) :
  written (trace (stream env sub sched)) = stream_body env (received sched).
Proof.
  induction sched as [|[|data werr|] sched IH];
    [reflexivity | reflexivity | | exact IH].
  rewrite stream_delivery. unfold trace at 1. cbn [fst received stream_body].
  change (written (CallListen sub :: ?t)) with (written t).
  rewrite written_app, written_log_if_err, append_empty_l.
  change (written (Write ?b :: ?t)) with (b +:+ written t).
  rewrite written_app, written_log_if_err, append_empty_l.
  change (written (Flush :: ?t)) with (written t).
  by rewrite IH.
Qed.

Lemma stream_logs (sub : Subscriber) (sched : list Select) :
  List.filter is_Log (trace (stream env sub sched))
  = flat_map (delivery_logs env) (deliveries sched).
Proof. loop_induction sched. Qed.

Lemma stream_no_read (sub : Subscriber) (sched : list Select) :
  List.filter is_store_read (trace (stream env sub sched)) = [].
Proof. loop_induction sched. Qed.

Lemma stream_no_header_call (sub : Subscriber) (sched : list Select) :
  List.filter is_header_call (trace (stream env sub sched)) = [].
Proof. loop_induction sched. Qed.

Lemma stream_cancelled (sub : Subscriber) (sched more : list Select) :
  CtxDone ∈ sched ->
  stream env sub (sched ++ more) = stream env sub sched.
Proof.
  induction sched as [|[|data werr|] sched IH]; intros Hin.
  - by apply elem_of_nil in Hin.
  - reflexivity.
  - apply elem_of_cons in Hin as [?|Hin]; [done|].
    cbn. by rewrite IH.
  - apply elem_of_cons in Hin as [?|Hin]; [done|].
    cbn. by rewrite IH.
Qed.

Lemma stream_app (sub : Subscriber) (s1 s2 : list Select) :
  CtxDone ∉ s1 ->
  stream env sub (s1 ++ s2)
  = (trace (stream env sub s1) ++ trace (stream env sub s2),
     outcome (stream env sub s2)).
Proof.
  induction s1 as [|[|data werr|] s1 IH]; intros Hnot.
  - cbn [app]. unfold trace, outcome. by destruct (stream env sub s2).
  - destruct Hnot. apply list_elem_of_here.
  - rewrite not_elem_of_cons in Hnot. destruct Hnot as [_ Hnot].
    specialize (IH Hnot). unfold trace, outcome in *. cbn. rewrite IH. cbn.
    by destruct (json_Marshal_sample env data), werr.
  - rewrite not_elem_of_cons in Hnot. destruct Hnot as [_ Hnot].
    specialize (IH Hnot). unfold trace, outcome in *. cbn. by rewrite IH.
Qed.

Lemma commit_Some code (w : Response) :
  exists c, committed (commit code w) = Some c.
Proof.
  unfold commit. destruct (committed w) eqn:Hc; [|by eexists].
  rewrite Hc. by eexists.
Qed.

Lemma committed_commit_Some code (w : Response) c :
  committed w = Some c -> committed (commit code w) = Some c.
Proof. intros Hc. unfold commit. by rewrite Hc. Qed.

(** What the loop makes of the response: the first write, if there is
    one, sends status 200 with the header as it stands, unless a status
    has been sent before. *)
Lemma stream_committed (sub : Subscriber) (sched : list Select) (w : Response) :
  committed (fold_left writer_step (trace (stream env sub sched)) w)
  = match received sched with
    | [] => committed w
    | _ :: _ => committed (commit StatusOK w)
    end.
Proof.
  revert w. induction sched as [|[|data werr|] sched IH]; intros w.
  - reflexivity.
  - reflexivity.
  - rewrite stream_delivery. unfold trace at 1. cbn [fst received].
    destruct (json_Marshal_sample env data), werr;
      cbn -[commit String.append]; unfold trace in IH; rewrite IH;
      (destruct (received sched); [reflexivity|]);
      destruct (commit_Some StatusOK w) as [c Hc]; rewrite Hc;
      by apply committed_commit_Some.
  - unfold trace in *. cbn. apply IH.
Qed.

(** *** snapshotBy *)

(** [snapshotBy] calls [NewSubscriber] exactly when the writer can flush,
    the [ids] parameter is not empty and every id of the list is a known
    monitor; the call then gets the server's broker and the ids of the
    list, in the order and with the repetitions of the request. *)
Theorem snapshotBy_subscribes_iff
  (w : bool) (q : gmap string (list string)) (sched : list Select)
  (broker : option Broker) (ids : list string) :
  CallNewSubscriber broker ids ∈ trace (snapshotBy env s w q sched)
  <-> w = true
      ∧ Values_Get q "ids" ≠ ""
      ∧ (forall id, id ∈ strings_Split_comma (Values_Get q "ids") ->
                    id ∈ monitorIds env)
      ∧ broker = centralBroker s
      ∧ ids = strings_Split_comma (Values_Get q "ids").
Proof.
  pose proof (snapshotBy_subscribes env s w q sched) as Hsub.
  split.
  - intros Hin.
    destruct w; [|by destruct (filter_nil_elem _ _ _ eq_refl Hin Hsub)].
    destruct (String.eqb_spec (Values_Get q "ids") "") as [He|He];
      [by destruct (filter_nil_elem _ _ _ eq_refl Hin Hsub)|].
    cbn [negb andb] in Hsub. case_bool_decide as Hknown;
      [|by destruct (filter_nil_elem _ _ _ eq_refl Hin Hsub)].
    apply (filter_singleton_elem _ _ _ _ eq_refl Hin) in Hsub.
    injection Hsub as -> ->.
    repeat split; try done.
    intros id Hid. apply slices_Contains_elem_of.
    by apply (proj1 (first_unknown_None env _) Hknown).
  - intros (-> & He & Hknown & -> & ->).
    apply String.eqb_neq in He. rewrite He in Hsub. cbn [negb andb] in Hsub.
    rewrite bool_decide_eq_true_2 in Hsub.
    + apply list_elem_of_In.
      eapply (proj1 (filter_In is_NewSubscriber _ _)).
      rewrite Hsub. by left.
    + apply first_unknown_None. intros id Hid.
      apply slices_Contains_elem_of. by apply Hknown.
Qed.

(** A request to [snapshotBy] with no [ids] (the key is absent, has no
    value, or has the empty string as its first value), on a writer that
    can flush, is answered with status 400 and the body
    [{"error":"ids is required"}]; no subscriber is created. *)
Theorem snapshotBy_missing_ids
  (q : gmap string (list string)) (sched : list Select) :
  (q !! "ids" = None ∨ q !! "ids" = Some []
   ∨ exists rest, q !! "ids" = Some ("" :: rest)) ->
  snapshotBy env s true q sched
  = ([WriteHeader StatusBadRequest;
      HeaderSet "Content-Type" "application/json";
      Write (error_json "ids is required")], Returned)
  ∧ sent_status (response_of (trace (snapshotBy env s true q sched)))
    = Some StatusBadRequest
  ∧ body (response_of (trace (snapshotBy env s true q sched)))
    = error_json "ids is required".
Proof.
  intros Hids%Values_Get_empty. unfold snapshotBy. rewrite Hids.
  by vm_compute.
Qed.

(** A list of ids with an empty part (a comma at the start or at the end,
    or two commas in a row) is refused when the empty string is no
    monitor: status 400, the body
    [{"error": "id is not in the list of monitors"}], no subscriber. *)
Theorem snapshotBy_empty_part_refused
  (q : gmap string (list string)) (sched : list Select) :
  ((exists a, Values_Get q "ids" = a +:+ ",")
   ∨ (exists b, Values_Get q "ids" = "," +:+ b)
   ∨ (exists a b, Values_Get q "ids" = a +:+ ",," +:+ b)) ->
  "" ∉ monitorIds env ->
  snapshotBy env s true q sched
  = ([HeaderSet "Content-Type" "application/json";
      WriteHeader StatusBadRequest;
      Write (error_json_sp "id is not in the list of monitors")], Returned)
  ∧ sent_status (response_of (trace (snapshotBy env s true q sched)))
    = Some StatusBadRequest.
Proof.
  intros Hshape Hempty.
  assert (Hin : "" ∈ strings_Split_comma (Values_Get q "ids")).
  { unfold strings_Split_comma.
    destruct Hshape as [[a ->]|[[b ->]|(a & b & ->)]].
    - apply split_comma_aux_trailing.
    - apply list_elem_of_here.
    - apply split_comma_aux_empty_part. }
  assert (Hne : Values_Get q "ids" ≠ "").
  { destruct Hshape as [[a Ha]|[[b Hb]|(a & b & Hab)]]; intros He.
    - rewrite He in Ha. by destruct a.
    - by rewrite He in Hb.
    - rewrite He in Hab. by destruct a. }
  unfold snapshotBy. cbn [negb].
  apply String.eqb_neq in Hne. rewrite Hne.
  destruct (first_unknown env _) as [id|] eqn:Hfirst; [by vm_compute|].
  rewrite first_unknown_None in Hfirst.
  specialize (Hfirst "" Hin). by apply slices_Contains_elem_of in Hfirst.
Qed.

(** The status line of [snapshotBy] is settled by the checks alone: 412
    and no header when the writer cannot flush; 400 and no header when
    [ids] is empty; 400 with content type application/json when an id is
    unknown; 200 with the three event-stream headers in every other case,
    whatever the subscriber, the samples and the writes do.  It is never
    500. *)
Theorem snapshotBy_status_line
  (w : bool) (q : gmap string (list string)) (sched : list Select) :
  committed (response_of (trace (snapshotBy env s w q sched)))
  = Some (if negb w then (StatusPreconditionFailed, ∅)
          else if String.eqb (Values_Get q "ids") "" then (StatusBadRequest, ∅)
          else match first_unknown env
                       (strings_Split_comma (Values_Get q "ids")) with
               | Some _ =>
                   (StatusBadRequest, {[ "Content-Type" := "application/json" ]})
               | None => (StatusOK, event_stream_header)
               end).
Proof.
  unfold snapshotBy. destruct w; [|by vm_compute]. cbn [negb].
  destruct (String.eqb (Values_Get q "ids") ""); [by vm_compute|].
  destruct (first_unknown env _) as [id|]; [by vm_compute|].
  unfold response_of, trace. cbn [mbind M_bind emit fst snd app fold_left].
  apply committed_stable. by vm_compute.
Qed.

(** *** snapshotOverview *)

(** [snapshotOverview] never sets the event-stream headers and calls
    [WriteHeader] before it sets a content type, so no header it sets is
    sent.  Its status is 412 when the writer cannot flush and 500 when
    [NewSubscriber] fails; on a stream the handler writes no status until
    the first sample is written, which sends status 200 with the empty
    header map. *)
Theorem snapshotOverview_status_line
  (w : bool) (q : gmap string (list string)) (sched : list Select) :
  committed (response_of (trace (snapshotOverview env s w q sched)))
  = if negb w then Some (StatusPreconditionFailed, ∅)
    else match NewSubscriber env (centralBroker s) (monitorIds env) with
         | Err _ => Some (StatusInternalServerError, ∅)
         | Ok _ => match received sched with
                   | [] => None
                   | _ :: _ => Some (StatusOK, ∅)
                   end
         end.
Proof.
  unfold snapshotOverview, call_NewSubscriber. destruct w; [|by vm_compute].
  cbn [negb].
  destruct (NewSubscriber env _ _) as [sub|err].
  - unfold response_of, trace.
    cbn [mbind M_bind mret M_ret emit fst snd app fold_left writer_step].
    pose proof (stream_committed sub sched Response_init) as Hc.
    unfold trace in Hc. rewrite Hc. by destruct (received sched).
  - cbn [mbind M_bind mret M_ret emit fst snd app].
    rewrite subscribe_failed_run. by vm_compute.
Qed.

(** When [NewSubscriber] fails in [snapshotOverview], the client gets
    status 500 and the JSON error object as the body: the serialized
    message [failed to subscribe to endpoints: ...], or the fixed
    [{"error": "internal server error"}] when that cannot be serialized. *)
Theorem snapshotOverview_subscribe_error
  (q : gmap string (list string)) (sched : list Select) (err : string) :
  NewSubscriber env (centralBroker s) (monitorIds env) = Err err ->
  outcome (snapshotOverview env s true q sched) = Returned
  ∧ sent_status (response_of (trace (snapshotOverview env s true q sched)))
    = Some StatusInternalServerError
  ∧ body (response_of (trace (snapshotOverview env s true q sched)))
    = match json_Marshal_error env
              ("failed to subscribe to endpoints: " +:+ err) with
      | Ok errBytes => errBytes
      | Err _ => error_json_sp "internal server error"
      end
  ∧ List.filter is_Listen (trace (snapshotOverview env s true q sched)) = [].
Proof.
  intros Herr. unfold snapshotOverview, call_NewSubscriber.
  cbn [negb mbind M_bind mret M_ret emit fst snd app]. rewrite Herr.
  rewrite subscribe_failed_run. by vm_compute.
Qed.

(** *** Streaming connections *)

(** The body a streaming connection has produced is the concatenation,
    in the order of reception, of the events of the samples received; a
    failed write changes nothing of what is handed to the writer next. *)
Theorem Streaming_body h (sub : Subscriber) :
  Streaming env s h sub ->
  forall sched,
    body (response_of (trace (h sched))) = stream_body env (received sched).
Proof.
  intros (pre & ids & Hrun & Hpre & _)%Streaming_enters_loop sched.
  rewrite body_response_of, Hrun. unfold trace at 1. cbn [fst].
  rewrite written_app, stream_written.
  rewrite (written_no_write pre); [reflexivity|].
  by apply (filter_nil_weaken _ _ pre loop_event_Write_or_Flush).
Qed.

(** Once an iteration has taken the cancellation case the handler has
    returned: whatever the connection would do next changes nothing. *)
Theorem Streaming_cancelled h (sub : Subscriber) :
  Streaming env s h sub ->
  forall sched more,
    CtxDone ∈ sched ->
    h (sched ++ more) = h sched ∧ outcome (h sched) = Returned.
Proof.
  intros (pre & ids & Hrun & _)%Streaming_enters_loop sched more Hin.
  rewrite !Hrun, (stream_cancelled sub sched more Hin).
  split; [reflexivity|]. unfold outcome at 1. cbn [snd].
  rewrite stream_outcome.
  replace (existsb is_CtxDone sched) with true; [reflexivity|].
  symmetry. apply existsb_exists. exists CtxDone.
  split; [by apply list_elem_of_In | reflexivity].
Qed.

(** As long as no iteration takes the cancellation case, a connection
    goes on where it stood: its calls over a schedule followed by another
    are its calls over the first followed by the calls of the loop over the
    second. *)
Theorem Streaming_continues h (sub : Subscriber) :
  Streaming env s h sub ->
  forall sched more,
    CtxDone ∉ sched ->
    trace (h (sched ++ more))
    = trace (h sched) ++ trace (stream env sub more)
    ∧ outcome (h (sched ++ more)) = outcome (stream env sub more).
Proof.
  intros (pre & ids & Hrun & _)%Streaming_enters_loop sched more Hnot.
  rewrite !Hrun, (stream_app sub sched more Hnot).
  unfold trace, outcome. cbn [fst snd].
  by rewrite app_assoc.
Qed.

(** What a streaming connection logs: for each sample received, in
    order, one line if its serialization failed and one line if its write
    failed, and nothing else. *)
Theorem Streaming_logs h (sub : Subscriber) :
  Streaming env s h sub ->
  forall sched,
    List.filter is_Log (trace (h sched))
    = flat_map (delivery_logs env) (deliveries sched).
Proof.
  intros Hs sched. destruct Hs as [q sub' Hsub | q sub' Hids Hknown Hsub].
  - unfold snapshotOverview, call_NewSubscriber.
    cbn [negb mbind M_bind mret M_ret emit fst snd app trace].
    rewrite Hsub. cbn [List.filter is_Log]. apply stream_logs.
  - unfold snapshotBy, call_NewSubscriber. cbn [negb].
    apply String.eqb_neq in Hids. rewrite Hids, Hknown.
    cbn [mbind M_bind mret M_ret emit fst snd app trace].
    rewrite Hsub. cbn [List.filter is_Log]. apply stream_logs.
Qed.

Lemma snapshotOverview_no_read
  (w : bool) (q : gmap string (list string)) (sched : list Select) :
  List.filter is_store_read (trace (snapshotOverview env s w q sched)) = [].
Proof.
  unfold snapshotOverview, call_NewSubscriber. destruct w; [|reflexivity].
  cbn [negb mbind M_bind mret M_ret emit fst snd app trace].
  destruct (NewSubscriber env _ _) as [sub|err].
  - apply stream_no_read.
  - by rewrite subscribe_failed_run.
Qed.

Lemma snapshotBy_no_read
  (w : bool) (q : gmap string (list string)) (sched : list Select) :
  List.filter is_store_read (trace (snapshotBy env s w q sched)) = [].
Proof.
  unfold snapshotBy, call_NewSubscriber. destruct w; [|reflexivity].
  cbn [negb].
  destruct (String.eqb (Values_Get q "ids") ""); [reflexivity|].
  destruct (first_unknown env _) as [id|]; [reflexivity|].
  cbn [mbind M_bind mret M_ret emit fst snd app trace].
  destruct (NewSubscriber env _ _) as [sub|err].
  - apply stream_no_read.
  - by rewrite subscribe_failed_run.
Qed.

(** The streaming endpoints never read the historical store. *)
Theorem stream_endpoints_never_read
  (w : bool) (q : gmap string (list string)) (sched : list Select) :
  List.filter is_store_read (trace (snapshotOverview env s w q sched)) = []
  ∧ List.filter is_store_read (trace (snapshotBy env s w q sched)) = [].
Proof. split; [apply snapshotOverview_no_read | apply snapshotBy_no_read]. Qed.

End StreamEndpoints.

(** ** More on NewServer *)

Section ConstructionReader.

Context {Broker MonitorHistoricalReader Subscriber Monitor : Type}.
Variable env : Env Broker MonitorHistoricalReader Subscriber Monitor.

(** [NewServer] copies the historical reader of the configuration into
    the [Server]: every read of the store made by a handler it routes is
    made on that reader. *)
Theorem NewServer_reader_copied
  (config : ServerConfig Broker MonitorHistoricalReader) :
  historicalReader (the_server (NewServer env config))
  = cfg_MonitorHistoricalReader config
  ∧ forall path handler w q sched e,
      (path, handler) ∈ api_routes (NewServer env config) ->
      e ∈ trace (handler w q sched) ->
      is_store_read e = true ->
      exists id,
        e = CallReadRaw (cfg_MonitorHistoricalReader config) id
        ∨ e = CallReadHourly (cfg_MonitorHistoricalReader config) id
        ∨ e = CallReadDaily (cfg_MonitorHistoricalReader config) id.
Proof.
  split; [reflexivity|].
  intros path handler w q sched e Hroute Hin He.
  cbn in Hroute.
  apply elem_of_cons in Hroute as [Heq|Hroute];
    [|apply elem_of_cons in Hroute as [Heq|Hroute];
      [|apply elem_of_cons in Hroute as [Heq|Hroute];
        [|by apply elem_of_nil in Hroute]]];
    injection Heq as -> ->.
  - destruct (filter_nil_elem _ _ _ He Hin
      (snapshotOverview_no_read env
         (the_server (NewServer env config)) w q sched)).
  - destruct (filter_nil_elem _ _ _ He Hin
      (snapshotBy_no_read env
         (the_server (NewServer env config)) w q sched)).
  - destruct (staticSnapshot_reads env (the_server (NewServer env config))
                w q sched e Hin He) as [tier ->].
    exists (Values_Get q "id"). destruct tier; cbn; tauto.
Qed.

End ConstructionReader.

(** ** The migration *)

Section Migration.

Implicit Types cat : gmap string Relation.

Lemma exec_all_cons cat cat' st sts :
  exec cat st = Ok cat' -> exec_all cat (st :: sts) = exec_all cat' sts.
Proof. intros H. cbn [exec_all]. by rewrite H. Qed.

Lemma exec_all_cons_inv cat cat' st sts :
  exec_all cat (st :: sts) = Ok cat' ->
  exists cat1, exec cat st = Ok cat1 ∧ exec_all cat1 sts = Ok cat'.
Proof.
  cbn [exec_all]. destruct (exec cat st) as [cat1|e]; [|done]. by exists cat1.
Qed.

Lemma exec_create_table cat name columns :
  cat !! name = None ->
  exec cat (CREATE_TABLE name columns) = Ok (<[name := Table columns]> cat).
Proof. intros H. cbn [exec]. by rewrite H. Qed.

Lemma exec_create_index cat name table columns tcols :
  cat !! table = Some (Table tcols) ->
  forallb (has_column tcols) columns = true ->
  cat !! name = None ->
  exec cat (CREATE_INDEX name table columns)
  = Ok (<[name := Index table columns]> cat).
Proof. intros Ht Hc Hn. cbn [exec]. by rewrite Ht, Hc, Hn. Qed.

Lemma exec_drop_table cat name tcols :
  cat !! name = Some (Table tcols) ->
  exec cat (DROP_TABLE name)
  = Ok (filter (λ kr, kr.1 ≠ name ∧ index_on name kr.2 = false) cat).
Proof. intros H. cbn [exec]. by rewrite H. Qed.

Lemma created_taken cat st name :
  created st = Some name -> is_Some (cat !! name) ->
  exists e, exec cat st = Err e.
Proof.
  intros Hc [r Hr]. destruct st as [n cols|n t cols|n]; [| |done];
    injection Hc as ->; cbn [exec]; rewrite ?Hr; [by eexists|].
  destruct (cat !! t) as [[tcols|]|]; try by eexists.
  destruct (negb _); by eexists.
Qed.

Lemma created_keeps cat cat' st name k :
  created st = Some name -> exec cat st = Ok cat' ->
  is_Some (cat !! k) -> is_Some (cat' !! k).
Proof.
  intros Hc Hexec Hk. destruct st as [n cols|n t cols|n]; [| |done];
    injection Hc as ->; cbn [exec] in Hexec.
  - destruct (cat !! name) eqn:Hn; [done|]. injection Hexec as <-.
    rewrite lookup_insert_is_Some. destruct (decide (name = k)); auto.
  - destruct (cat !! t) as [[tcols|]|]; try done.
    destruct (negb _); [done|].
    destruct (cat !! name) eqn:Hn; [done|]. injection Hexec as <-.
    rewrite lookup_insert_is_Some. destruct (decide (name = k)); auto.
Qed.

Lemma exec_all_created_taken cat sts name :
  Forall (λ st, is_Some (created st)) sts ->
  Some name ∈ map created sts ->
  is_Some (cat !! name) ->
  exists e, exec_all cat sts = Err e.
Proof.
  intros Hall. revert cat.
  induction Hall as [|st sts [n Hn] _ IH]; intros cat Hin Hsome.
  - by apply elem_of_nil in Hin.
  - cbn [exec_all]. destruct (exec cat st) as [cat'|e] eqn:Hexec; [|by eexists].
    cbn [map] in Hin. apply elem_of_cons in Hin as [Heq|Hin].
    + destruct (created_taken cat st name (eq_sym Heq) Hsome) as [e He].
      congruence.
    + apply IH; [done|]. by eapply created_keeps.
Qed.

Lemma exec_all_created_keeps cat cat' sts k :
  Forall (λ st, is_Some (created st)) sts ->
  exec_all cat sts = Ok cat' ->
  is_Some (cat !! k) -> is_Some (cat' !! k).
Proof.
  intros Hall. revert cat.
  induction Hall as [|st sts [n Hn] _ IH]; intros cat Hexec Hk.
  - by injection Hexec as <-.
  - cbn [exec_all] in Hexec.
    destruct (exec cat st) as [cat1|e] eqn:H1; [|done].
    apply (IH cat1 Hexec). by eapply created_keeps.
Qed.

Lemma migration_up_creates :
  Forall (λ st, is_Some (created st)) migration_up
  ∧ forall name,
      name ∈ migration_relations -> Some name ∈ map created migration_up.
Proof.
  split; [repeat constructor; by eexists|].
  intros name Hin. apply list_elem_of_In in Hin. apply list_elem_of_In.
  cbn in Hin |- *. intuition congruence.
Qed.

(** The Up migration needs all six names free: if a relation with the
    name of one of its tables or indexes exists, it fails (and changes
    nothing).  So it cannot be applied twice: after a successful Up, a
    second Up fails. *)
Theorem migration_up_needs_free_names cat :
  (forall name,
     name ∈ migration_relations -> is_Some (cat !! name) ->
     exists e, exec_all cat migration_up = Err e)
  ∧ (forall cat',
       exec_all cat migration_up = Ok cat' ->
       exists e, exec_all cat' migration_up = Err e).
Proof.
  destruct migration_up_creates as [Hall Hnames].
  assert (Htaken : forall c name,
    name ∈ migration_relations -> is_Some (c !! name) ->
    exists e, exec_all c migration_up = Err e).
  { intros c name Hin Hsome.
    apply (exec_all_created_taken c migration_up name Hall); [|done].
    by apply Hnames. }
  split; [apply Htaken|].
  intros cat' Hup.
  apply (Htaken cat' "monitor_historical"); [apply list_elem_of_here|].
  unfold migration_up in Hup, Hall.
  apply exec_all_cons_inv in Hup as (cat1 & H1 & Hup).
  eapply (exec_all_created_keeps cat1 cat'); [|exact Hup|].
  - by inversion Hall.
  - cbn [exec] in H1. destruct (cat !! "monitor_historical"); [done|].
    injection H1 as <-. by rewrite lookup_insert_eq.
Qed.

Lemma dropped_missing cat st name :
  dropped st = Some name ->
  (forall cols, cat !! name ≠ Some (Table cols)) ->
  exists e, exec cat st = Err e.
Proof.
  intros Hd Hmissing. destruct st as [| |n]; [done..|]. injection Hd as ->.
  cbn [exec]. destruct (cat !! name) as [[cols|]|] eqn:Hn; try by eexists.
  by destruct (Hmissing cols).
Qed.

Lemma dropped_keeps_missing cat cat' st name k :
  dropped st = Some name -> exec cat st = Ok cat' ->
  (forall cols, cat !! k ≠ Some (Table cols)) ->
  forall cols, cat' !! k ≠ Some (Table cols).
Proof.
  intros Hd Hexec Hmissing cols Hk.
  destruct st as [| |n]; [done..|]. injection Hd as ->.
  cbn [exec] in Hexec. destruct (cat !! name) as [[tcols|]|]; try done.
  injection Hexec as <-. apply map_lookup_filter_Some_1_1 in Hk.
  by destruct (Hmissing cols).
Qed.

Lemma exec_all_dropped_keeps_missing cat cat' sts k :
  Forall (λ st, is_Some (dropped st)) sts ->
  exec_all cat sts = Ok cat' ->
  (forall cols, cat !! k ≠ Some (Table cols)) ->
  forall cols, cat' !! k ≠ Some (Table cols).
Proof.
  intros Hall. revert cat.
  induction Hall as [|st sts [n Hn] _ IH]; intros cat Hexec Hk.
  - by injection Hexec as <-.
  - apply exec_all_cons_inv in Hexec as (cat1 & H1 & Hexec).
    apply (IH cat1 Hexec). by eapply dropped_keeps_missing.
Qed.

Lemma exec_all_dropped_missing cat sts name :
  Forall (λ st, is_Some (dropped st)) sts ->
  Some name ∈ map dropped sts ->
  (forall cols, cat !! name ≠ Some (Table cols)) ->
  exists e, exec_all cat sts = Err e.
Proof.
  intros Hall. revert cat.
  induction Hall as [|st sts [n Hn] _ IH]; intros cat Hin Hmissing.
  - by apply elem_of_nil in Hin.
  - cbn [exec_all]. destruct (exec cat st) as [cat'|e] eqn:Hexec; [|by eexists].
    cbn [map] in Hin. apply elem_of_cons in Hin as [Heq|Hin].
    + destruct (dropped_missing cat st name (eq_sym Heq) Hmissing) as [e He].
      congruence.
    + apply IH; [done|]. by eapply dropped_keeps_missing.
Qed.

Lemma migration_down_drops :
  Forall (λ st, is_Some (dropped st)) migration_down
  ∧ map dropped migration_down = map Some migration_tables.
Proof. split; [repeat constructor; by eexists | reflexivity]. Qed.

(** The Down migration needs the three tables: if one of them is not in
    the catalog it fails.  So it cannot be applied twice: after a
    successful Down, a second Down fails. *)
Theorem migration_down_needs_tables cat :
  (forall name,
     name ∈ migration_tables ->
     (forall cols, cat !! name ≠ Some (Table cols)) ->
     exists e, exec_all cat migration_down = Err e)
  ∧ (forall cat',
       exec_all cat migration_down = Ok cat' ->
       exists e, exec_all cat' migration_down = Err e).
Proof.
  destruct migration_down_drops as [Hall Hnames].
  assert (Hmissing : forall c name,
    name ∈ migration_tables ->
    (forall cols, c !! name ≠ Some (Table cols)) ->
    exists e, exec_all c migration_down = Err e).
  { intros c name Hin Hno.
    apply (exec_all_dropped_missing c migration_down name Hall); [|done].
    rewrite Hnames. by apply list_elem_of_fmap_2. }
  split; [apply Hmissing|].
  intros cat' Hdown.
  apply (Hmissing cat' "monitor_historical"); [apply list_elem_of_here|].
  unfold migration_down in Hdown, Hall.
  apply exec_all_cons_inv in Hdown as (cat1 & H1 & Hdown).
  eapply (exec_all_dropped_keeps_missing cat1 cat'); [|exact Hdown|].
  - by inversion Hall.
  - intros cols Hk. cbn [exec] in H1.
    destruct (cat !! "monitor_historical") as [[tcols|]|]; try done.
    injection H1 as <-. apply map_lookup_filter_Some_1_2 in Hk.
    by destruct Hk as [Hk _].
Qed.

(** Up then Down is a round trip: on a catalog whose indexes have their
    tables and in which the six names of the migration are free, Up
    succeeds, Down then succeeds, and the catalog is back as it was (the
    three indexes go with their tables, nothing else is touched). *)
Theorem migration_round_trip cat :
  indexes_have_tables cat ->
  Forall (λ name, cat !! name = None) migration_relations ->
  exists cat',
    exec_all cat migration_up = Ok cat'
    ∧ exec_all cat' migration_down = Ok cat.
Proof.
  intros Hwf Hfree. rewrite Forall_forall in Hfree.
  assert (HT1 : cat !! "monitor_historical" = None)
    by (apply Hfree, list_elem_of_In; cbn; tauto).
  assert (HT2 : cat !! "monitor_historical_hourly_aggregate" = None)
    by (apply Hfree, list_elem_of_In; cbn; tauto).
  assert (HT3 : cat !! "monitor_historical_daily_aggregate" = None)
    by (apply Hfree, list_elem_of_In; cbn; tauto).
  assert (HI1 : cat !! "monitor_historical_monitor_id_idx" = None)
    by (apply Hfree, list_elem_of_In; cbn; tauto).
  assert (HI2 : cat !!
    "monitor_historical_hourly_aggregate_monitor_id_timestamp_idx" = None)
    by (apply Hfree, list_elem_of_In; cbn; tauto).
  assert (HI3 : cat !!
    "monitor_historical_daily_aggregate_monitor_id_timestamp_idx" = None)
    by (apply Hfree, list_elem_of_In; cbn; tauto).
  clear Hfree.
  eexists. split.
  - unfold migration_up.
    erewrite exec_all_cons; [|by apply exec_create_table].
    erewrite exec_all_cons;
      [|apply (exec_create_index _ _ _ _ raw_columns);
        [by rewrite lookup_insert_eq | reflexivity
        |by rewrite lookup_insert_ne]].
    erewrite exec_all_cons;
      [|apply exec_create_table; by rewrite !lookup_insert_ne].
    erewrite exec_all_cons;
      [|apply (exec_create_index _ _ _ _ aggregate_columns);
        [by rewrite lookup_insert_eq | reflexivity
        |by rewrite !lookup_insert_ne]].
    erewrite exec_all_cons;
      [|apply exec_create_table; by rewrite !lookup_insert_ne].
    erewrite exec_all_cons;
      [|apply (exec_create_index _ _ _ _ aggregate_columns);
        [by rewrite lookup_insert_eq | reflexivity
        |by rewrite !lookup_insert_ne]].
    reflexivity.
  - unfold migration_down.
    erewrite exec_all_cons;
      [|apply (exec_drop_table _ _ raw_columns);
        by rewrite !lookup_insert_ne, lookup_insert_eq by done].
    erewrite exec_all_cons;
      [|apply (exec_drop_table _ _ aggregate_columns);
        apply map_lookup_filter_Some_2;
        [by rewrite !lookup_insert_ne, lookup_insert_eq by done | done]].
    erewrite exec_all_cons;
      [|apply (exec_drop_table _ _ aggregate_columns);
        do 2 (apply map_lookup_filter_Some_2; [|done]);
        by rewrite !lookup_insert_ne, lookup_insert_eq by done].
    cbn [exec_all]. f_equal.
    apply map_eq. intros k. apply option_eq. intros r.
    rewrite !map_lookup_filter_Some, !lookup_insert_Some. cbn [fst snd].
    split.
    + intros ((([[<- <-]|[_ [[<- <-]|[_ [[<- <-]|[_ [[<- <-]|[_ [[<- <-]|[_ [[<- <-]|[_ Hk]]]]]]]]]]]]
                & H1) & H2) & H3); try done;
        cbn in H1, H2, H3; destruct H1, H2, H3; done.
    + intros Hk.
      assert (Hidx : forall name, cat !! name = None -> index_on name r = false).
      { intros name Hname. destruct r as [cols|t cols]; [done|].
        specialize (Hwf k _ Hk). cbn in Hwf. unfold is_table in Hwf.
        cbn. apply String.eqb_neq. intros ->. by rewrite Hname in Hwf. }
      repeat split; try (by apply Hidx); try (intros ->; congruence).
      repeat (right; split; [intros <-; congruence|]). exact Hk.
Qed.

End Migration.

(** ** The further theorems at concrete inputs *)

(** No [id] at all, with an interval that does not exist. *)
Lemma staticSnapshot_missing_id_witness :
  ({[ "interval" := ["weekly"] ]} : gmap string (list string)) !! "id" = None
  ∧ body (response_of (trace (staticSnapshot env_ok srv0 true
                                {[ "interval" := ["weekly"] ]} [])))
    = error_json_sp "id is required".
Proof.
  split; [reflexivity|].
  apply (staticSnapshot_missing_id env_ok srv0 true
           {[ "interval" := ["weekly"] ]} []).
  left. reflexivity.
Defined.

(** The daily series of a monitor nobody knows. *)
Lemma staticSnapshot_unknown_id_witness :
  tier_of (Values_Get {[ "id" := ["zzz"]; "interval" := ["daily"] ]} "interval")
  = Some Daily
  ∧ sent_status (response_of (trace (staticSnapshot env_ok srv0 true
      {[ "id" := ["zzz"]; "interval" := ["daily"] ]} [])))
    = Some StatusBadRequest
  ∧ body (response_of (trace (staticSnapshot env_ok srv0 true
      {[ "id" := ["zzz"]; "interval" := ["daily"] ]} [])))
    = error_json_sp "id is not in the list of monitors".
Proof.
  split; [reflexivity|].
  assert (Hunknown :
    Values_Get {[ "id" := ["zzz"]; "interval" := ["daily"] ]} "id"
    ∉ monitorIds env_ok).
  { rewrite list_elem_of_In. vm_compute. intuition discriminate. }
  assert (Hid :
    Values_Get {[ "id" := ["zzz"]; "interval" := ["daily"] ]} "id" ≠ "")
    by (by vm_compute).
  destruct (staticSnapshot_unknown_id env_ok srv0 true
              {[ "id" := ["zzz"]; "interval" := ["daily"] ]} [] Daily
              Hid Hunknown eq_refl)
    as (_ & Hstatus & Hbody & _).
  split; [exact Hstatus | exact Hbody].
Defined.

(** The daily series of monitor a. *)
Lemma staticSnapshot_reads_selected_tier_witness :
  "a" ∈ monitorIds env_ok
  ∧ List.filter is_store_read (trace (staticSnapshot env_ok srv0 true q_daily []))
    = [CallReadDaily None "a"].
Proof.
  assert (Hin : "a" ∈ monitorIds env_ok) by apply list_elem_of_here.
  split; [exact Hin|].
  apply (staticSnapshot_reads_selected_tier env_ok srv0 true q_daily [] Daily);
    [by vm_compute | exact Hin | reflexivity].
Defined.

(** The raw series of monitor a, read and serialized. *)
Lemma staticSnapshot_ok_witness :
  staticSnapshot env_ok srv0 true q_raw []
  = ([CallReadRaw None "a";
      WriteHeader StatusOK;
      HeaderSet "Content-Type" "application/json";
      Write "{}"], Returned)
  ∧ sent_status (response_of (trace (staticSnapshot env_ok srv0 true q_raw [])))
    = Some StatusOK
  ∧ body (response_of (trace (staticSnapshot env_ok srv0 true q_raw []))) = "{}".
Proof.
  apply (staticSnapshot_ok env_ok srv0 true q_raw [] Raw [] "{}");
    [by vm_compute | apply list_elem_of_here | reflexivity..].
Defined.

(** The hourly series of monitor a, read but not serialized. *)
Lemma staticSnapshot_marshal_error_witness :
  json_Marshal_snapshot env_bad_document tt [] = Err "unsupported type"
  ∧ sent_status (response_of
      (trace (staticSnapshot env_bad_document srv0 true q_default [])))
    = Some StatusInternalServerError
  ∧ body (response_of
      (trace (staticSnapshot env_bad_document srv0 true q_default [])))
    = error_json "unsupported type".
Proof.
  split; [reflexivity|].
  assert (Hid : Values_Get q_default "id" ≠ "") by (by vm_compute).
  assert (Hin : Values_Get q_default "id" ∈ monitorIds env_bad_document)
    by apply list_elem_of_here.
  destruct (staticSnapshot_marshal_error env_bad_document srv0 true q_default []
              Hourly [] "unsupported type" Hid Hin eq_refl eq_refl eq_refl)
    as (_ & Hstatus & Hbody).
  split; [exact Hstatus | exact Hbody].
Defined.

(** Two known monitors on a writer that can flush. *)
Lemma snapshotBy_subscribes_iff_witness :
  strings_Split_comma (Values_Get q_ids_ab "ids") = ["a"; "b"]
  ∧ CallNewSubscriber None ["a"; "b"]
      ∈ trace (snapshotBy env_ok srv0 true q_ids_ab [CtxDone]).
Proof.
  split; [reflexivity|].
  apply (proj2 (snapshotBy_subscribes_iff env_ok srv0 true q_ids_ab [CtxDone]
                  None ["a"; "b"])).
  repeat split; by vm_compute.
Defined.

(** A request to /api/by with no query. *)
Lemma snapshotBy_missing_ids_witness :
  (∅ : gmap string (list string)) !! "ids" = None
  ∧ body (response_of (trace (snapshotBy env_ok srv0 true ∅ [NoneReady])))
    = error_json "ids is required".
Proof.
  split; [reflexivity|].
  apply (snapshotBy_missing_ids env_ok srv0 ∅ [NoneReady]).
  left. reflexivity.
Defined.

(** A list that ends with a comma. *)
Lemma snapshotBy_empty_part_refused_witness :
  Values_Get {[ "ids" := ["a,b,"] ]} "ids" = "a,b" +:+ ","
  ∧ sent_status (response_of
      (trace (snapshotBy env_ok srv0 true {[ "ids" := ["a,b,"] ]} [NoneReady])))
    = Some StatusBadRequest.
Proof.
  split; [reflexivity|].
  apply (snapshotBy_empty_part_refused env_ok srv0
           {[ "ids" := ["a,b,"] ]} [NoneReady]).
  - left. by exists "a,b".
  - rewrite list_elem_of_In. vm_compute. intuition discriminate.
Defined.

(** A subscription that fails on /api/overview. *)
Lemma snapshotOverview_subscribe_error_witness :
  NewSubscriber env_no_sub None ["a"; "b"] = Err "no broker"
  ∧ sent_status (response_of
      (trace (snapshotOverview env_no_sub srv0 true ∅ [NoneReady])))
    = Some StatusInternalServerError
  ∧ body (response_of
      (trace (snapshotOverview env_no_sub srv0 true ∅ [NoneReady])))
    = error_json "failed to subscribe to endpoints: no broker".
Proof.
  split; [reflexivity|].
  destruct (snapshotOverview_subscribe_error env_no_sub srv0 ∅ [NoneReady]
              "no broker" eq_refl) as (_ & Hstatus & Hbody & _).
  split; [exact Hstatus | exact Hbody].
Defined.

(** Two samples, the second written in vain. *)
Lemma Streaming_body_witness :
  Streaming env_ok srv0 (snapshotOverview env_ok srv0 true ∅) 7%nat
  ∧ body (response_of (trace (snapshotOverview env_ok srv0 true ∅
      [Recv sample_a None; NoneReady; Recv sample_b (Some "broken pipe")])))
    = "data: {a}" +:+ nl +:+ nl +:+ "data: {b}" +:+ nl +:+ nl.
Proof.
  split; [by apply Streaming_overview|].
  apply (Streaming_body env_ok srv0 _ 7%nat
           (Streaming_overview env_ok srv0 ∅ 7%nat eq_refl)
           [Recv sample_a None; NoneReady; Recv sample_b (Some "broken pipe")]).
Defined.

(** A sample that comes after the cancellation. *)
Lemma Streaming_cancelled_witness :
  CtxDone ∈ [NoneReady; CtxDone]
  ∧ snapshotOverview env_ok srv0 true ∅
      ([NoneReady; CtxDone] ++ [Recv sample_a None])
    = snapshotOverview env_ok srv0 true ∅ [NoneReady; CtxDone]
  ∧ outcome (snapshotOverview env_ok srv0 true ∅ [NoneReady; CtxDone])
    = Returned.
Proof.
  assert (Hin : CtxDone ∈ [NoneReady; CtxDone])
    by apply list_elem_of_further, list_elem_of_here.
  split; [exact Hin|].
  apply (Streaming_cancelled env_ok srv0 _ 7%nat
           (Streaming_overview env_ok srv0 ∅ 7%nat eq_refl)
           [NoneReady; CtxDone] [Recv sample_a None] Hin).
Defined.

(** A connection that idles, then receives a sample. *)
Lemma Streaming_continues_witness :
  (CtxDone ∉ [NoneReady])
  ∧ trace (snapshotOverview env_ok srv0 true ∅
             ([NoneReady] ++ [Recv sample_a None]))
    = trace (snapshotOverview env_ok srv0 true ∅ [NoneReady])
      ++ trace (stream env_ok 7%nat [Recv sample_a None]).
Proof.
  assert (Hnot : CtxDone ∉ [NoneReady]).
  { rewrite list_elem_of_In. cbn. intuition discriminate. }
  split; [exact Hnot|].
  apply (proj1 (Streaming_continues env_ok srv0 _ 7%nat
                  (Streaming_overview env_ok srv0 ∅ 7%nat eq_refl)
                  [NoneReady] [Recv sample_a None] Hnot)).
Defined.

(** A sample that does not serialize and is written in vain. *)
Lemma Streaming_logs_witness :
  Streaming env0 srv0 (snapshotOverview env0 srv0 true ∅) 7%nat
  ∧ List.filter is_Log (trace (snapshotOverview env0 srv0 true ∅
      [Recv sample_a (Some "broken pipe"); NoneReady; Recv sample_b None]))
    = [Log "failed to marshal data: unsupported value";
       Log "failed to write data: broken pipe";
       Log "failed to marshal data: unsupported value"].
Proof.
  split; [by apply Streaming_overview|].
  apply (Streaming_logs env0 srv0 _ 7%nat
           (Streaming_overview env0 srv0 ∅ 7%nat eq_refl)
           [Recv sample_a (Some "broken pipe"); NoneReady; Recv sample_b None]).
Defined.

(** The reader of the configuration, on /api/static. *)
Lemma NewServer_reader_copied_witness :
  cfg_MonitorHistoricalReader cfg0 = Some tt
  ∧ CallReadHourly (Some tt) "a"
      ∈ trace (staticSnapshot env_ok (the_server (NewServer env_ok cfg0))
                 true q_default [])
  ∧ historicalReader (the_server (NewServer env_ok cfg0)) = Some tt
  ∧ exists id,
      (CallReadHourly (Some tt) "a" : Event unit unit nat)
      = CallReadRaw (Some tt) id
      ∨ (CallReadHourly (Some tt) "a" : Event unit unit nat)
        = CallReadHourly (Some tt) id
      ∨ (CallReadHourly (Some tt) "a" : Event unit unit nat)
        = CallReadDaily (Some tt) id.
Proof.
  split; [reflexivity|].
  assert (Hroute :
    ("/api/static", staticSnapshot env_ok (the_server (NewServer env_ok cfg0)))
      ∈ api_routes (NewServer env_ok cfg0)).
  { vm_compute. do 2 apply list_elem_of_further. apply list_elem_of_here. }
  assert (Hcall : CallReadHourly (Some tt) "a"
      ∈ trace (staticSnapshot env_ok (the_server (NewServer env_ok cfg0))
                 true q_default [])).
  { vm_compute. apply list_elem_of_here. }
  split; [exact Hcall|]. split.
  - apply (proj1 (NewServer_reader_copied env_ok cfg0)).
  - apply (proj2 (NewServer_reader_copied env_ok cfg0)
             "/api/static" _ true q_default [] _ Hroute Hcall eq_refl).
Defined.

(** The migration on a database that has a table and an index of its
    own. *)
Lemma migration_round_trip_witness :
  indexes_have_tables cat_users
  ∧ exists cat',
      exec_all cat_users migration_up = Ok cat'
      ∧ exec_all cat' migration_down = Ok cat_users.
Proof.
  assert (Hwf : indexes_have_tables cat_users).
  { unfold indexes_have_tables. apply (bool_decide_unpack _). by vm_compute. }
  split; [exact Hwf|].
  apply (migration_round_trip cat_users Hwf).
  apply (bool_decide_unpack _). by vm_compute.
Defined.

(** A database in which the hourly table is already there. *)
Lemma migration_up_needs_free_names_witness :
  is_Some (({[ "monitor_historical_hourly_aggregate" := Table [] ]}
            : gmap string Relation)
           !! "monitor_historical_hourly_aggregate")
  ∧ exists e,
      exec_all {[ "monitor_historical_hourly_aggregate" := Table [] ]}
        migration_up = Err e.
Proof.
  assert (Hsome : is_Some (({[ "monitor_historical_hourly_aggregate" := Table [] ]}
            : gmap string Relation)
           !! "monitor_historical_hourly_aggregate")) by (by eexists).
  split; [exact Hsome|].
  apply (proj1 (migration_up_needs_free_names
                  {[ "monitor_historical_hourly_aggregate" := Table [] ]})
           "monitor_historical_hourly_aggregate"); [|exact Hsome].
  apply list_elem_of_further, list_elem_of_here.
Defined.

(** A database that has never seen the migration. *)
Lemma migration_down_needs_tables_witness :
  cat_users !! "monitor_historical_daily_aggregate" = None
  ∧ exists e, exec_all cat_users migration_down = Err e.
Proof.
  split; [reflexivity|].
  apply (proj1 (migration_down_needs_tables cat_users)
           "monitor_historical_daily_aggregate").
  - do 2 apply list_elem_of_further. apply list_elem_of_here.
  - intros cols. by vm_compute.
Defined.
